(** * node_server.py: the block hashing scheme, the proof-of-work search
      and the block acceptance rule of the ledger

    The development embeds [Block] and [Blockchain] of [node_server.py]
    as executable Rocq functions, together with the two library
    functions they are built on: [hashlib.sha256] (FIPS 180-4, on bytes)
    and [json.dumps(..., sort_keys=True)].

    Conventions of the embedding.
    - A Python [int] is a [Z].  A Python [str] is a Rocq [string] read as
      a sequence of code points below 256.
    - A Python [float] is only ever written out by the program, never
      computed with: it is kept as the text [repr] gives for it.
    - A block is a record of the entries of its [__dict__]; the
      attribute [hash], which the program attaches after construction,
      is an [option].
    - Methods that mutate [self] or an argument return the new values.
      The candidate handed to [add_block] is an object of its own, not
      one already stored in the chain.
    - The [while] loop of [proof_of_work] runs on fuel. *)

From Stdlib Require Import ZArith List String Ascii Bool Lia.
From Stdlib Require Import DecimalString.
From Stdlib Require Import Permutation.
Import ListNotations.

Local Open Scope string_scope.
Local Open Scope list_scope.
Local Open Scope Z_scope.

(** ** hashlib.sha256 *)

Module SHA256.

Definition mask32 : Z := 0xffffffff.

Definition w32 (x : Z) : Z := Z.land x mask32.

Definition add32 (x y : Z) : Z := w32 (x + y).

Definition rotr (n x : Z) : Z :=
  Z.lor (Z.shiftr x n) (w32 (Z.shiftl x (32 - n))).

Definition not32 (x : Z) : Z := Z.lxor x mask32.

Definition Ch (x y z : Z) : Z :=
  Z.lxor (Z.land x y) (Z.land (not32 x) z).

Definition Maj (x y z : Z) : Z :=
  Z.lxor (Z.lxor (Z.land x y) (Z.land x z)) (Z.land y z).

Definition Sigma0 (x : Z) : Z :=
  Z.lxor (Z.lxor (rotr 2 x) (rotr 13 x)) (rotr 22 x).

Definition Sigma1 (x : Z) : Z :=
  Z.lxor (Z.lxor (rotr 6 x) (rotr 11 x)) (rotr 25 x).

Definition sigma0 (x : Z) : Z :=
  Z.lxor (Z.lxor (rotr 7 x) (rotr 18 x)) (Z.shiftr x 3).

Definition sigma1 (x : Z) : Z :=
  Z.lxor (Z.lxor (rotr 17 x) (rotr 19 x)) (Z.shiftr x 10).

(** The first primes, by trial division. *)
Definition no_divisor (ps : list Z) (c : Z) : bool :=
  forallb (fun p => negb (c mod p =? 0)) ps.

Fixpoint primes_from (fuel : nat) (c : Z) (found : list Z) : list Z :=
  match fuel with
  | O => found
  | S fuel' =>
      primes_from fuel' (c + 1)
                  (if no_divisor found c then found ++ [c] else found)
  end.

Definition first_primes (n : nat) : list Z :=
  firstn n (primes_from 310 2 []).

(** The largest [r] below [2 ^ bits] with [r ^ 3 <= n], bit by bit. *)
Fixpoint cube_root (bits : nat) (n r : Z) : Z :=
  match bits with
  | O => r
  | S bits' =>
      let c := r + 2 ^ Z.of_nat bits' in
      cube_root bits' n (if c * c * c <=? n then c else r)
  end.

(** The round constants: the first 32 bits of the fractional part of the
    cube root of each of the first 64 primes. *)
Definition K : list Z :=
  Eval vm_compute in
    map (fun p => w32 (cube_root 36 (p * 2 ^ 96) 0)) (first_primes 64).

(** The eight working variables a..h, also the shape of a hash value. *)
Record regs : Type := Regs {
  ra : Z; rb : Z; rc : Z; rd : Z; re : Z; rf : Z; rg : Z; rh : Z
}.

(** The initial hash value: the first 32 bits of the fractional part of
    the square root of each of the first 8 primes. *)
Definition H0 : regs :=
  Eval vm_compute in
    let h := fun i => w32 (Z.sqrt (nth i (first_primes 8) 0 * 2 ^ 64)) in
    Regs (h 0%nat) (h 1%nat) (h 2%nat) (h 3%nat)
         (h 4%nat) (h 5%nat) (h 6%nat) (h 7%nat).

Example K_first_last :
  nth 0 K 0 = 0x428a2f98 /\ nth 63 K 0 = 0xc67178f2 /\ List.length K = 64%nat.
Proof. repeat split. Qed.

Example H0_first_last : ra H0 = 0x6a09e667 /\ rh H0 = 0x5be0cd19.
Proof. split; reflexivity. Qed.

Definition round (s : regs) (k w : Z) : regs :=
  let t1 := add32 (add32 (add32 (add32 (rh s) (Sigma1 (re s)))
                                 (Ch (re s) (rf s) (rg s))) k) w in
  let t2 := add32 (Sigma0 (ra s)) (Maj (ra s) (rb s) (rc s)) in
  Regs (add32 t1 t2) (ra s) (rb s) (rc s)
       (add32 (rd s) t1) (re s) (rf s) (rg s).

(** One round per constant.  [win] is the window W(t) .. W(t+15) of the
    message schedule; it slides by one word each round. *)
Fixpoint rounds (ks : list Z) (win : list Z) (s : regs) : regs :=
  match ks, win with
  | k :: ks', w0 :: win' =>
      let w1 := nth 0 win' 0 in
      let w9 := nth 8 win' 0 in
      let w14 := nth 13 win' 0 in
      let w16 := add32 (add32 (add32 (sigma1 w14) w9) (sigma0 w1)) w0 in
      rounds ks' (win' ++ [w16])%list (round s k w0)
  | _, _ => s
  end.

Definition compress (h : regs) (block : list Z) : regs :=
  let s := rounds K block h in
  Regs (add32 (ra h) (ra s)) (add32 (rb h) (rb s))
       (add32 (rc h) (rc s)) (add32 (rd h) (rd s))
       (add32 (re h) (re s)) (add32 (rf h) (rf s))
       (add32 (rg h) (rg s)) (add32 (rh h) (rh s)).

(** Big-endian bytes of the low [n] bytes of [x]. *)
Fixpoint be_bytes (n : nat) (x : Z) : list Z :=
  match n with
  | O => []
  | S n' => Z.land (Z.shiftr x (8 * Z.of_nat n')) 0xff :: be_bytes n' x
  end.

Definition pad (msg : list Z) : list Z :=
  let len := Z.of_nat (List.length msg) in
  (msg ++ [0x80] ++ repeat 0 (Z.to_nat ((55 - len) mod 64))
       ++ be_bytes 8 (8 * len))%list.

Fixpoint words_of_bytes (bs : list Z) : list Z :=
  match bs with
  | a :: b :: c :: d :: rest =>
      Z.lor (Z.shiftl a 24) (Z.lor (Z.shiftl b 16) (Z.lor (Z.shiftl c 8) d))
        :: words_of_bytes rest
  | _ => []
  end.

Fixpoint hash_blocks (n : nat) (ws : list Z) (h : regs) : regs :=
  match n with
  | O => h
  | S n' => hash_blocks n' (skipn 16 ws) (compress h (firstn 16 ws))
  end.

Definition digest (msg : list Z) : list Z :=
  let ws := words_of_bytes (pad msg) in
  let h := hash_blocks (Nat.div (List.length ws) 16) ws H0 in
  List.concat (map (be_bytes 4)
            [ra h; rb h; rc h; rd h; re h; rf h; rg h; rh h]).

End SHA256.

(** ** str.encode() and hexdigest() *)

Definition code_point (c : ascii) : Z := Z.of_N (N_of_ascii c).

(** UTF-8 of one code point below 256. *)
Definition utf8 (c : ascii) : list Z :=
  let n := code_point c in
  if n <? 128 then [n]
  else [Z.lor 0xc0 (Z.shiftr n 6); Z.lor 0x80 (Z.land n 0x3f)].

Definition encode (s : string) : list Z :=
  flat_map utf8 (list_ascii_of_string s).

Definition hex_digit (n : Z) : ascii :=
  if n <? 10 then ascii_of_N (Z.to_N (48 + n))
  else ascii_of_N (Z.to_N (87 + n)).

Definition hex_byte (b : Z) : string :=
  String (hex_digit (Z.shiftr b 4)) (String (hex_digit (Z.land b 0xf)) "").

Definition hexdigest (bs : list Z) : string :=
  String.concat "" (map hex_byte bs).

(** [sha256(s.encode()).hexdigest()] *)
Definition sha256_hex (s : string) : string :=
  hexdigest (SHA256.digest (encode s)).

Example sha256_hex_empty :
  sha256_hex ""
  = "e3b0c44298fc1c149afbf4c8996fb92427ae41e4649b934ca495991b7852b855".
Proof. vm_compute. reflexivity. Qed.

Example sha256_hex_abc :
  sha256_hex "abc"
  = "ba7816bf8f01cfea414140de5dae2223b00361a396177a9cb410ff61f20015ad".
Proof. vm_compute. reflexivity. Qed.

Example sha256_hex_two_blocks :
  sha256_hex "abcdbcdecdefdefgefghfghighijhijkijkljklmklmnlmnomnopnopq"
  = "248d6a61d20638b8e5c026930c3e6039a33ce45964ff2167f6ecedd419db06c1".
Proof. vm_compute. reflexivity. Qed.

(** ** json.dumps(obj, sort_keys=True)

    The values the program serialises.  Dictionaries have [str] keys and
    remember insertion order, as Python's do. *)

Inductive pyfloat : Type := PyFloat (repr : string).

#[warnings="-register-all"]
Inductive json : Type :=
| JNull
| JBool (b : bool)
| JInt (n : Z)
| JFloat (x : pyfloat)
| JStr (s : string)
| JList (items : list json)
| JDict (entries : list (string * json)).

(** [str(n)] for an [int]. *)
Definition int_repr (n : Z) : string := NilZero.string_of_int (Z.to_int n).

Definition dquote : string := String "034"%char "".

(** ['{0:04x}'.format(n)] *)
Definition hex4 (n : Z) : string :=
  (hex_byte (Z.land (Z.shiftr n 8) 0xff) ++ hex_byte (Z.land n 0xff))%string.

(** One character of [py_encode_basestring_ascii]: the short escapes,
    [\uXXXX] for everything else outside [' '..'~']. *)
Definition escape_char (c : ascii) : string :=
  let n := code_point c in
  if n =? 34 then ("\" ++ dquote)%string
  else if n =? 92 then "\\"
  else if n =? 10 then "\n"
  else if n =? 13 then "\r"
  else if n =? 9 then "\t"
  else if n =? 8 then "\b"
  else if n =? 12 then "\f"
  else if (n <? 32) || (126 <? n) then ("\u" ++ hex4 n)%string
  else String c "".

Definition encode_basestring_ascii (s : string) : string :=
  (dquote ++ String.concat "" (map escape_char (list_ascii_of_string s))
          ++ dquote)%string.

(** [sorted(items)] on the items of a dictionary: by key, code point by
    code point; stable. *)
Fixpoint insert_item {A : Type} (x : string * A) (l : list (string * A))
  : list (string * A) :=
  match l with
  | [] => [x]
  | y :: l' =>
      if String.leb (fst x) (fst y) then x :: y :: l'
      else y :: insert_item x l'
  end.

Definition sort_items {A : Type} (l : list (string * A)) : list (string * A) :=
  fold_right insert_item [] l.

Definition item_text (kv : string * string) : string :=
  (encode_basestring_ascii (fst kv) ++ ": " ++ snd kv)%string.

(** [json.dumps(v, sort_keys=True)] with the default separators.  The
    entries of a dictionary are rendered first and ordered by key
    afterwards; the order depends on the keys alone. *)
Fixpoint json_dumps (v : json) : string :=
  match v with
  | JNull => "null"
  | JBool true => "true"
  | JBool false => "false"
  | JInt n => int_repr n
  | JFloat (PyFloat r) => r
  | JStr s => encode_basestring_ascii s
  | JList items =>
      ("[" ++ String.concat ", " (map json_dumps items) ++ "]")%string
  | JDict entries =>
      let rendered :=
        map (fun kv => match kv with (k, x) => (k, json_dumps x) end) entries in
      ("{" ++ String.concat ", " (map item_text (sort_items rendered))
           ++ "}")%string
  end.

(** ** class Block *)

Record Block : Type := mkBlock {
  index : Z;
  transactions : list json;
  timestamp : pyfloat;
  previous_hash : string;
  nonce : Z;
  hash : option string     (* absent until [block.hash = ...] runs *)
}.

(** [Block.__init__] *)
Definition Block_init (index : Z) (transactions : list json)
    (timestamp : pyfloat) (previous_hash : string) : Block :=
  mkBlock index transactions timestamp previous_hash 0 None.

Definition set_nonce (b : Block) (n : Z) : Block :=
  mkBlock (index b) (transactions b) (timestamp b) (previous_hash b) n (hash b).

Definition set_hash (b : Block) (h : option string) : Block :=
  mkBlock (index b) (transactions b) (timestamp b) (previous_hash b)
          (nonce b) h.

(** [self.__dict__], in the order the attributes were assigned: the five
    of [__init__], then [hash] once it has been attached. *)
Definition Block_dict (b : Block) : list (string * json) :=
  [ ("index", JInt (index b));
    ("transactions", JList (transactions b));
    ("timestamp", JFloat (timestamp b));
    ("previous_hash", JStr (previous_hash b));
    ("nonce", JInt (nonce b)) ]
  ++ match hash b with
     | Some h => [("hash", JStr h)]
     | None => []
     end.

Definition block_string (b : Block) : string :=
  json_dumps (JDict (Block_dict b)).

(** [Block.compute_hash] *)
Definition compute_hash (b : Block) : string :=
  sha256_hex (block_string b).

(** ** Outcomes of a call

    A call returns, raises, or is still looping when its fuel is spent. *)

Inductive exn : Type :=
| IndexError         (* [self.chain[-1]] on an empty list *)
| AttributeError.    (* [.hash] on a block that has none  *)

Inductive run (A : Type) : Type :=
| Done (a : A)
| Raise (e : exn)
| OutOfFuel.

Arguments Done {A} a.
Arguments Raise {A} e.
Arguments OutOfFuel {A}.

Definition bind {A B : Type} (m : run A) (k : A -> run B) : run B :=
  match m with
  | Done a => k a
  | Raise e => Raise e
  | OutOfFuel => OutOfFuel
  end.

Notation "x <- m ;; k" := (bind m (fun x => k))
  (at level 61, m at next level, right associativity).
Notation "' p <- m ;; k" := (bind m (fun x => match x with p => k end))
  (at level 61, p pattern, m at next level, right associativity).

(** ** class Blockchain *)

Definition difficulty : Z := 2.

Record Blockchain : Type := mkBlockchain {
  unconfirmed_transactions : list json;
  chain : list Block
}.

Definition set_chain (self : Blockchain) (c : list Block) : Blockchain :=
  mkBlockchain (unconfirmed_transactions self) c.

Definition set_unconfirmed (self : Blockchain) (p : list json) : Blockchain :=
  mkBlockchain p (chain self).

(** [s * n] for a string and an [int]; empty when [n <= 0]. *)
Definition str_mul (s : string) (n : Z) : string :=
  String.concat "" (repeat s (Z.to_nat n)).

(** [s.startswith(p)] *)
Definition startswith (s p : string) : bool := String.prefix p s.

(** [block.hash] *)
Definition get_hash (b : Block) : run string :=
  match hash b with
  | Some h => Done h
  | None => Raise AttributeError
  end.

(** [Blockchain.last_block]: [self.chain[-1]] *)
Definition last_block (self : Blockchain) : run Block :=
  match chain self with
  | [] => Raise IndexError
  | b :: rest => Done (last rest b)
  end.

(** [Blockchain.create_genesis_block]; [now] is what [time.time()] gave. *)
Definition create_genesis_block (now : pyfloat) (self : Blockchain)
  : Blockchain :=
  let genesis_block := Block_init 0 [] now "0" in
  let genesis_block :=
    set_hash genesis_block (Some (compute_hash genesis_block)) in
  set_chain self (chain self ++ [genesis_block]).

(** [Blockchain.__init__] *)
Definition Blockchain_init (now : pyfloat) : Blockchain :=
  create_genesis_block now (mkBlockchain [] []).

(** The loop of [proof_of_work]: [fuel] bounds the number of times the
    body [block.nonce += 1] may run. *)
Fixpoint proof_of_work_loop (fuel : nat) (block : Block)
  : run (Block * string) :=
  let computed_hash := compute_hash block in
  if startswith computed_hash (str_mul "0" difficulty)
  then Done (block, computed_hash)
  else match fuel with
       | O => OutOfFuel
       | S fuel' => proof_of_work_loop fuel' (set_nonce block (nonce block + 1))
       end.

(** [Blockchain.proof_of_work]: the block as the search leaves it, and
    the digest returned. *)
Definition proof_of_work (fuel : nat) (block : Block) : run (Block * string) :=
  proof_of_work_loop fuel (set_nonce block 0).

(** [Blockchain.is_valid_proof] *)
Definition is_valid_proof (block : Block) (block_hash : string) : bool :=
  startswith block_hash (str_mul "0" difficulty)
  && String.eqb block_hash (compute_hash block).

(** [Blockchain.add_block]: the value returned, the ledger and the
    candidate as the call leaves them. *)
Definition add_block (self : Blockchain) (block : Block) (proof : string)
  : run (bool * Blockchain * Block) :=
  tail <- last_block self ;;
  previous <- get_hash tail ;;
  if negb (String.eqb previous (previous_hash block)) then
    Done (false, self, block)
  else if negb (is_valid_proof block proof) then
    Done (false, self, block)
  else
    let block := set_hash block (Some proof) in
    Done (true, set_chain self (chain self ++ [block]), block).

(** [Blockchain.add_new_transaction] *)
Definition add_new_transaction (self : Blockchain) (transaction : json)
  : Blockchain :=
  set_unconfirmed self (unconfirmed_transactions self ++ [transaction]).

(** What [mine] returns: [False] or an [int]. *)
Inductive pyval : Type :=
| PyFalse
| PyInt (n : Z).

(** [not v] is false. *)
Definition truthy (v : pyval) : bool :=
  match v with
  | PyFalse => false
  | PyInt n => negb (n =? 0)
  end.

(** [v == w]; [False == 0] holds in Python. *)
Definition py_eq (v w : pyval) : bool :=
  match v, w with
  | PyFalse, PyFalse => true
  | PyFalse, PyInt n | PyInt n, PyFalse => n =? 0
  | PyInt n, PyInt m => n =? m
  end.

(** Lines 111-116 of [mine]: the candidate and its proof. *)
Definition mine_candidate (fuel : nat) (now : pyfloat) (self : Blockchain)
  : run (Block * string) :=
  last <- last_block self ;;
  previous <- get_hash last ;;
  let new_block :=
    Block_init (index last + 1) (unconfirmed_transactions self) now previous in
  proof_of_work fuel new_block.

(** Lines 117-119 of [mine]: the result of [add_block] is dropped. *)
Definition mine_commit (self : Blockchain) (new_block : Block)
    (proof : string) : run (pyval * Blockchain) :=
  '(_, self, new_block) <- add_block self new_block proof ;;
  Done (PyInt (index new_block), set_unconfirmed self []).

(** [Blockchain.mine]; [now] is what [time.time()] gave. *)
Definition mine (fuel : nat) (now : pyfloat) (self : Blockchain)
  : run (pyval * Blockchain) :=
  match unconfirmed_transactions self with
  | [] => Done (PyFalse, self)
  | _ :: _ =>
      '(new_block, proof) <- mine_candidate fuel now self ;;
      mine_commit self new_block proof
  end.

(** ** The public operations and the states they reach *)

Inductive op : Type :=
| OpSubmit (transaction : json)
| OpMine (now : pyfloat)
| OpAddBlock (block : Block) (proof : string).

(** One call that returns.  A [mine] whose search never ends, or a call
    that raises, takes no step. *)
Inductive step : Blockchain -> op -> Blockchain -> Prop :=
| step_submit self transaction :
    step self (OpSubmit transaction) (add_new_transaction self transaction)
| step_mine self now fuel v self' :
    mine fuel now self = Done (v, self') ->
    step self (OpMine now) self'
| step_add_block self block proof ok self' block' :
    add_block self block proof = Done (ok, self', block') ->
    step self (OpAddBlock block proof) self'.

(** The states reached from a fresh ledger by calls that [allowed]
    admits. *)
Inductive reachable_by (allowed : Blockchain -> op -> Prop)
  : Blockchain -> Prop :=
| reach_init now : reachable_by allowed (Blockchain_init now)
| reach_step self o self' :
    reachable_by allowed self -> allowed self o -> step self o self' ->
    reachable_by allowed self'.

(** Every call admitted, [add_block] with any candidate and any proof. *)
Definition any_call (self : Blockchain) (o : op) : Prop := True.

Definition reachable : Blockchain -> Prop := reachable_by any_call.

(** Calls in which a candidate handed to [add_block] from outside carries
    the index that follows the tail's. *)
Definition index_follows (self : Blockchain) (o : op) : Prop :=
  match o with
  | OpAddBlock block _ =>
      exists tail, last_block self = Done tail /\ index block = index tail + 1
  | _ => True
  end.

(** Calls in which a candidate handed to [add_block] from outside has an
    index that is not negative, as the index of a block is. *)
Definition index_non_negative (self : Blockchain) (o : op) : Prop :=
  match o with
  | OpAddBlock block _ => 0 <= index block
  | _ => True
  end.

(** The difficulty predicate on a digest. *)
Definition meets_difficulty (digest : string) : bool :=
  startswith digest (str_mul "0" difficulty).

(** The difficulty predicate at nonce [n], the other attributes of
    [block] being fixed. *)
Definition qualifies (block : Block) (n : Z) : bool :=
  meets_difficulty (compute_hash (set_nonce block n)).

(** [chain[i].previous_hash == chain[i-1].hash] for every i >= 1. *)
Definition linked (c : list Block) : Prop :=
  forall i prev b,
    nth_error c i = Some prev -> nth_error c (S i) = Some b ->
    hash prev = Some (previous_hash b).

(** [chain[i].index == i] for every i. *)
Definition indexed (c : list Block) : Prop :=
  forall i b, nth_error c i = Some b -> index b = Z.of_nat i.

(** The serialisation the specification asks for: the five fields
    index, transactions, timestamp, previous_hash and nonce under sorted
    keys, [hash] left out whether the block has one or not. *)
Definition spec_block_string (b : Block) : string :=
  json_dumps (JDict
    [ ("index", JInt (index b));
      ("nonce", JInt (nonce b));
      ("previous_hash", JStr (previous_hash b));
      ("timestamp", JFloat (timestamp b));
      ("transactions", JList (transactions b)) ]).

Definition spec_compute_hash (b : Block) : string :=
  sha256_hex (spec_block_string b).

(** The stored hash of every block but the first meets the difficulty,
    and the stored hash of every block is the digest of its five
    fields. *)
Definition sealed (c : list Block) : Prop :=
  forall i b,
    nth_error c i = Some b ->
    exists h, hash b = Some h /\
              (i <> 0%nat -> meets_difficulty h = true) /\
              h = spec_compute_hash b.

(** The same with the first block included and the digest recomputed by
    [compute_hash] on the block as it is stored. *)
Definition sealed_as_recomputed (c : list Block) : Prop :=
  forall i b,
    nth_error c i = Some b ->
    exists h, hash b = Some h /\ meets_difficulty h = true /\
              h = compute_hash b.

(** Calls in which a candidate handed to [add_block] from outside has no
    [hash] attribute yet. *)
Definition unsealed_candidate (self : Blockchain) (o : op) : Prop :=
  match o with
  | OpAddBlock block _ => hash block = None
  | _ => True
  end.

(** Two blocks with the same index, transactions, timestamp,
    previous_hash and nonce. *)
Definition same_fields (b1 b2 : Block) : Prop :=
  index b1 = index b2 /\ transactions b1 = transactions b2 /\
  timestamp b1 = timestamp b2 /\ previous_hash b1 = previous_hash b2 /\
  nonce b1 = nonce b2.

(** ** Concrete runs *)

Module Run.

Definition t0 : pyfloat := PyFloat "1532487065.7013392".

Definition tx_a : json := JDict [("author", JStr "a"); ("content", JStr "hello")].
Definition tx_b : json := JDict [("author", JStr "b"); ("content", JStr "world")].

Definition genesis_hash : string :=
  "ca6bce2bf2e9c5cf4154c7d628c31beeb0c1ad27e17d48bd060a299b130e6ac6".

Definition genesis : Block :=
  mkBlock 0 [] t0 "0" 0 (Some genesis_hash).

(** [Blockchain()] at time [t0]. *)
Definition fresh : Blockchain := mkBlockchain [] [genesis].

(** Two submissions, then [mine()] at [t_mine]. *)
Definition pending_ab : Blockchain := mkBlockchain [tx_a; tx_b] [genesis].

Definition t_mine : pyfloat := PyFloat "1532487411.0".

Definition candidate : Block := Block_init 1 [tx_a; tx_b] t_mine genesis_hash.

Definition mined_hash : string :=
  "00630d3a43742a7d8a9145dc46843ba8968302f9b420b500013740ec028f8846".

Definition mined_block : Block :=
  mkBlock 1 [tx_a; tx_b] t_mine genesis_hash 4 (Some mined_hash).

Definition mined : Blockchain := mkBlockchain [] [genesis; mined_block].

(** A block built outside with index 7 on top of genesis. *)
Definition t_out7 : pyfloat := PyFloat "1532487081.875".
Definition outside7 : Block := mkBlock 7 [] t_out7 genesis_hash 1 None.
Definition outside7_hash : string :=
  "0035bba385efd1b483bf344118113ca0c394f7429eb865989f74d273b2c9a0ff".
Definition with_outside7 : Blockchain :=
  mkBlockchain [] [genesis; set_hash outside7 (Some outside7_hash)].

(** A block built outside with index -1 on top of genesis, a
    submission, and [mine()] at [t_neg_mine]. *)
Definition t_neg : pyfloat := PyFloat "1532487089.75".
Definition outside_neg : Block := mkBlock (-1) [] t_neg genesis_hash 2 None.
Definition outside_neg_hash : string :=
  "00815c1aa2db88512cf37850bb792e3ffe2e5c94b7b80d4a02ef2bfe5e052fbf".
Definition with_outside_neg : Blockchain :=
  mkBlockchain [] [genesis; set_hash outside_neg (Some outside_neg_hash)].
Definition with_outside_neg_pending : Blockchain :=
  mkBlockchain [tx_a] [genesis; set_hash outside_neg (Some outside_neg_hash)].
Definition t_neg_mine : pyfloat := PyFloat "1532487092.0".
Definition mined_on_neg : Blockchain :=
  mkBlockchain []
    [ genesis; set_hash outside_neg (Some outside_neg_hash);
      mkBlock 0 [tx_a] t_neg_mine outside_neg_hash 2
        (Some "009cc2f42ca422b7d1ffc7bcd84aad3c4b7dcc65be10826a622306da51e6a9bf") ].

(** Two overlapping calls of [mine] on a ledger with one pending
    transaction: call A reads the clock at [t_A], call B at [t_B]. *)
Definition pending_a : Blockchain := mkBlockchain [tx_a] [genesis].

Definition t_A : pyfloat := PyFloat "1532487097.75".
Definition t_B : pyfloat := PyFloat "1532487115.0".

Definition candidate_A : Block := mkBlock 1 [tx_a] t_A genesis_hash 1 None.
Definition proof_A : string :=
  "005843f737b2b4fd24f7c258f1f6fec983541151766e87996316e0f90f4ddeaf".

Definition block_B : Block :=
  mkBlock 1 [tx_a] t_B genesis_hash 3
    (Some "00fd73f992c26b9a17abd23c77070f8d173610c1df3ce5b33c45faf16d98c618").

Definition after_B : Blockchain := mkBlockchain [] [genesis; block_B].
Definition after_B_pending : Blockchain := mkBlockchain [tx_b] [genesis; block_B].

End Run.

(** ** The request handlers

    [blockchain] is the ledger of the module; a handler takes it and
    returns it with what Flask is handed back.  [request.get_json()] is
    the parsed body, a [json]. *)

(** [not v] is false, for a parsed value: [None], [False], zero, the
    empty string, list and dictionary are falsy. *)
Definition json_truthy (v : json) : bool :=
  match v with
  | JNull => false
  | JBool b => b
  | JInt n => negb (n =? 0)
  | JFloat (PyFloat r) => negb (String.eqb r "0.0" || String.eqb r "-0.0")
  | JStr s => negb (String.eqb s "")
  | JList items => match items with [] => false | _ :: _ => true end
  | JDict entries => match entries with [] => false | _ :: _ => true end
  end.

(** [d[k]] when the key is there.  The keys of a dictionary are
    distinct. *)
Fixpoint dict_lookup (d : list (string * json)) (k : string) : option json :=
  match d with
  | [] => None
  | (k', v) :: d' => if String.eqb k' k then Some v else dict_lookup d' k
  end.

(** [d.get(k)]: [None] for a missing key. *)
Definition dict_get (d : list (string * json)) (k : string) : json :=
  match dict_lookup d k with
  | Some v => v
  | None => JNull
  end.

(** [d[k] = v]: the entry keeps its place, a new key goes last. *)
Fixpoint dict_set (d : list (string * json)) (k : string) (v : json)
  : list (string * json) :=
  match d with
  | [] => [(k, v)]
  | (k', v') :: d' =>
      if String.eqb k' k then (k', v) :: d' else (k', v') :: dict_set d' k v
  end.

Definition required_fields : list string := ["author"; "content"].

(** The loop of [new_transaction]: true when no required field is
    missing or falsy. *)
Fixpoint fields_present (d : list (string * json)) (fields : list string)
  : bool :=
  match fields with
  | [] => true
  | field :: rest =>
      if negb (json_truthy (dict_get d field)) then false
      else fields_present d rest
  end.

(** [new_transaction]: the body and status returned, and the ledger.
    Only a dictionary has [.get]. *)
Definition new_transaction (now : pyfloat) (tx_data : json)
    (blockchain : Blockchain) : run (string * Z * Blockchain) :=
  match tx_data with
  | JDict d =>
      if fields_present d required_fields then
        let d := dict_set d "timestamp" (JFloat now) in
        Done ("Success", 201, add_new_transaction blockchain (JDict d))
      else Done ("Invalid transaction data", 404, blockchain)
  | _ => Raise AttributeError
  end.

(** [str(v)], as [format] writes it. *)
Definition py_str (v : pyval) : string :=
  match v with
  | PyFalse => "False"
  | PyInt n => int_repr n
  end.

(** [mine_unconfirmed_transactions] *)
Definition mine_unconfirmed_transactions (fuel : nat) (now : pyfloat)
    (blockchain : Blockchain) : run (string * Blockchain) :=
  '(result, blockchain) <- mine fuel now blockchain ;;
  if negb (truthy result) then Done ("No transactions to mine", blockchain)
  else Done (("Block #" ++ py_str result ++ " is mined.")%string, blockchain).

(** [json.dumps(v)]: as [json_dumps], the entries of a dictionary in
    insertion order. *)
Fixpoint json_dumps_unsorted (v : json) : string :=
  match v with
  | JNull => "null"
  | JBool true => "true"
  | JBool false => "false"
  | JInt n => int_repr n
  | JFloat (PyFloat r) => r
  | JStr s => encode_basestring_ascii s
  | JList items =>
      ("[" ++ String.concat ", " (map json_dumps_unsorted items) ++ "]")%string
  | JDict entries =>
      let rendered :=
        map (fun kv => match kv with (k, x) => (k, json_dumps_unsorted x) end)
            entries in
      ("{" ++ String.concat ", " (map item_text rendered) ++ "}")%string
  end.

(** [get_pending_tx] *)
Definition get_pending_tx (blockchain : Blockchain) : string :=
  json_dumps_unsorted (JList (unconfirmed_transactions blockchain)).

(** The requests the handlers above serve, and one request answered. *)
Inductive request : Type :=
| PostNewTransaction (now : pyfloat) (tx_data : json)
| GetMine (now : pyfloat)
| GetPendingTx.

Inductive serves : Blockchain -> request -> Blockchain -> Prop :=
| serves_new_transaction blockchain now tx_data body status blockchain' :
    new_transaction now tx_data blockchain
    = Done (body, status, blockchain') ->
    serves blockchain (PostNewTransaction now tx_data) blockchain'
| serves_mine blockchain now fuel body blockchain' :
    mine_unconfirmed_transactions fuel now blockchain
    = Done (body, blockchain') ->
    serves blockchain (GetMine now) blockchain'
| serves_pending_tx blockchain :
    serves blockchain GetPendingTx blockchain.

(** The ledgers the server passes through: [blockchain = Blockchain()],
    then requests. *)
Inductive served : Blockchain -> Prop :=
| served_init now : served (Blockchain_init now)
| served_request blockchain r blockchain' :
    served blockchain -> serves blockchain r blockchain' ->
    served blockchain'.

(** A record as [new_transaction] lets it in: a dictionary with a truthy
    author and content, stamped with a float. *)
Definition stamped_record (v : json) : Prop :=
  exists d t,
    v = JDict d /\
    json_truthy (dict_get d "author") = true /\
    json_truthy (dict_get d "content") = true /\
    dict_lookup d "timestamp" = Some (JFloat t).

(** Calls to the ledger made by the handlers: none to [add_block]. *)
Definition no_outside_block (self : Blockchain) (o : op) : Prop :=
  match o with
  | OpAddBlock _ _ => False
  | _ => True
  end.

(** Several calls in a row. *)
Inductive steps : Blockchain -> list op -> Blockchain -> Prop :=
| steps_nil self : steps self [] self
| steps_cons self o self1 os self' :
    step self o self1 -> steps self1 os self' ->
    steps self (o :: os) self'.

(** On top of the outside block with index 7: one submission, then
    [mine()] at [t_mine]. *)
Module RunOutside.

Definition pending : Blockchain :=
  mkBlockchain [Run.tx_a]
    [Run.genesis; set_hash Run.outside7 (Some Run.outside7_hash)].

Definition t_mine : pyfloat := PyFloat "1532487082.5".

Definition mined : Blockchain :=
  mkBlockchain []
    [ Run.genesis; set_hash Run.outside7 (Some Run.outside7_hash);
      mkBlock 8 [Run.tx_a] t_mine Run.outside7_hash 2
        (Some "009f421f80f04353ba2099c8f116c8ec2b75e121fa1998aebe76f258e9989e07") ].

End RunOutside.

(** A run through the handlers: one record posted at [Run.t_A], then
    the mining handler at [t_mine]. *)
Module RunServer.

Definition body : json :=
  JDict [("author", JStr "a"); ("content", JStr "hello")].

Definition record : json :=
  JDict [("author", JStr "a"); ("content", JStr "hello");
         ("timestamp", JFloat Run.t_A)].

Definition pending : Blockchain := mkBlockchain [record] [Run.genesis].

Definition t_mine : pyfloat := PyFloat "1532487130.75".

Definition mined : Blockchain :=
  mkBlockchain []
    [ Run.genesis;
      mkBlock 1 [record] t_mine Run.genesis_hash 2
        (Some "00eac8b0caa939631078c010bba435dbf97e155329b4f9f58eda0e99a7e02817") ].

End RunServer.

(** Two records with the same entries, the keys in any order. *)
Definition same_entries (v1 v2 : json) : Prop :=
  exists d1 d2,
    v1 = JDict d1 /\ v2 = JDict d2 /\
    Permutation d1 d2 /\ NoDup (map fst d1).

(** * Properties *)

(** On a block that has no [hash] attribute, [compute_hash] is the
    digest of the five fields under sorted keys. *)
Lemma compute_hash_no_hash (b : Block) :
  hash b = None -> compute_hash b = spec_compute_hash b.
Proof.
  intros H. unfold compute_hash, spec_compute_hash. f_equal.
  unfold block_string, spec_block_string, Block_dict. rewrite H.
  reflexivity.
Qed.

Lemma spec_compute_hash_set_hash (b : Block) (h : option string) :
  spec_compute_hash (set_hash b h) = spec_compute_hash b.
Proof. reflexivity. Qed.

Opaque compute_hash.
Arguments meets_difficulty : simpl never.
Arguments is_valid_proof : simpl never.
Arguments proof_of_work_loop : simpl nomatch.

(** ** Outcomes and the list of blocks *)

Lemma bind_Done {A B : Type} (m : run A) (k : A -> run B) (r : B) :
  bind m k = Done r -> exists a, m = Done a /\ k a = Done r.
Proof.
  destruct m as [a | e | ]; simpl; intros H; try discriminate.
  exists a. split; [reflexivity | exact H].
Qed.

Lemma get_hash_Done (b : Block) (h : string) :
  get_hash b = Done h <-> hash b = Some h.
Proof.
  unfold get_hash. destruct (hash b); split; intros H;
    inversion H; reflexivity.
Qed.

Lemma last_default {A : Type} (rest : list A) :
  forall x d, last (x :: rest) d = last rest x.
Proof.
  induction rest as [| y r IH]; intros x d.
  - reflexivity.
  - change (last (x :: y :: r) d) with (last (y :: r) d).
    rewrite (IH y d), (IH y x). reflexivity.
Qed.

(** [self.chain[-1]] is the block a non-empty chain ends with. *)
Lemma last_block_Done (self : Blockchain) (tail : Block) :
  last_block self = Done tail <->
  exists init, chain self = init ++ [tail].
Proof.
  unfold last_block. split.
  - destruct (chain self) as [| x rest] eqn:E; intros H; [discriminate |].
    inversion H as [Ht]. exists (removelast (x :: rest)).
    rewrite <- (last_default rest x x).
    apply app_removelast_last. discriminate.
  - intros [init E]. rewrite E.
    destruct init as [| x init']; simpl.
    + reflexivity.
    + rewrite <- (last_default (init' ++ [tail]) x x).
      change (x :: init' ++ [tail]) with ((x :: init') ++ [tail]).
      rewrite last_last. reflexivity.
Qed.

Lemma set_hash_back (b : Block) (h : option string) :
  set_hash (set_hash b h) (hash b) = b.
Proof. destruct b; reflexivity. Qed.

Lemma nth_error_snoc {A : Type} (c : list A) (x : A) (i : nat) (y : A) :
  nth_error (c ++ [x]) i = Some y ->
  (i < List.length c)%nat /\ nth_error c i = Some y
  \/ i = List.length c /\ y = x.
Proof.
  intros H. destruct (Nat.lt_ge_cases i (List.length c)) as [Hlt | Hge].
  - left. rewrite nth_error_app1 in H by exact Hlt. auto.
  - right. rewrite nth_error_app2 in H by exact Hge.
    destruct (i - List.length c)%nat as [| k] eqn:E; simpl in H.
    + inversion H. split; [lia | reflexivity].
    + destruct k; discriminate.
Qed.

Lemma linked_snoc (init : list Block) (tail b : Block) :
  linked (init ++ [tail]) ->
  hash tail = Some (previous_hash b) ->
  linked ((init ++ [tail]) ++ [b]).
Proof.
  intros L Ht i prev b0 Hp Hb.
  apply nth_error_snoc in Hb. destruct Hb as [[Hlt Hb] | [Hi Hb]].
  - apply nth_error_snoc in Hp. destruct Hp as [[_ Hp] | [Hi _]].
    + exact (L i prev b0 Hp Hb).
    + lia.
  - subst b0. rewrite length_app in Hi. simpl in Hi.
    assert (Ei : i = List.length init) by lia. subst i.
    rewrite nth_error_app1 in Hp by (rewrite length_app; simpl; lia).
    rewrite nth_error_app2 in Hp by lia.
    rewrite Nat.sub_diag in Hp. simpl in Hp. inversion Hp. subst prev.
    exact Ht.
Qed.

Lemma indexed_snoc (init : list Block) (tail b : Block) :
  indexed (init ++ [tail]) ->
  index b = index tail + 1 ->
  indexed ((init ++ [tail]) ++ [b]).
Proof.
  intros I Hb i b0 H.
  apply nth_error_snoc in H. destruct H as [[_ H] | [Hi H]].
  - exact (I i b0 H).
  - subst b0 i. rewrite Hb.
    assert (Ht : index tail = Z.of_nat (List.length init)).
    { apply I. rewrite nth_error_app2 by lia.
      rewrite Nat.sub_diag. reflexivity. }
    rewrite Ht, length_app. simpl. lia.
Qed.

(** ** The search loop *)

Lemma proof_of_work_loop_eq (fuel : nat) (b : Block) :
  proof_of_work_loop fuel b =
  if meets_difficulty (compute_hash b) then Done (b, compute_hash b)
  else match fuel with
       | O => OutOfFuel
       | S fuel' => proof_of_work_loop fuel' (set_nonce b (nonce b + 1))
       end.
Proof. destruct fuel; reflexivity. Qed.

(** What the loop started at nonce [k] does with [fuel] increments: it
    stops at the first qualifying nonce from [k] on, or runs dry when
    none of [k .. k + fuel] qualifies.  It never raises. *)
Lemma proof_of_work_loop_spec (fuel : nat) :
  forall (block : Block) (k : Z),
    match proof_of_work_loop fuel (set_nonce block k) with
    | Done (b', d) =>
        exists n, k <= n <= k + Z.of_nat fuel /\
                  b' = set_nonce block n /\ d = compute_hash b' /\
                  qualifies block n = true /\
                  forall m, k <= m < n -> qualifies block m = false
    | Raise _ => False
    | OutOfFuel =>
        forall m, k <= m <= k + Z.of_nat fuel -> qualifies block m = false
    end.
Proof.
  induction fuel as [| fuel IH]; intros block k;
    rewrite proof_of_work_loop_eq;
    destruct (meets_difficulty (compute_hash (set_nonce block k))) eqn:E.
  - exists k. split; [lia |]. split; [reflexivity |]. split; [reflexivity |].
    split; [exact E |]. intros m Hm. lia.
  - intros m Hm. assert (m = k) by lia. subst m. exact E.
  - exists k. split; [lia |]. split; [reflexivity |]. split; [reflexivity |].
    split; [exact E |]. intros m Hm. lia.
  - change (set_nonce (set_nonce block k) (nonce (set_nonce block k) + 1))
      with (set_nonce block (k + 1)).
    specialize (IH block (k + 1)).
    destruct (proof_of_work_loop fuel (set_nonce block (k + 1)))
      as [[b' d] | e | ].
    + destruct IH as (n & Hn & Hb & Hd & Hq & Hmin).
      exists n. split; [lia |]. split; [exact Hb |]. split; [exact Hd |].
      split; [exact Hq |].
      intros m Hm. destruct (Z.eq_dec m k) as [-> | Hne].
      * exact E.
      * apply Hmin. lia.
    + exact IH.
    + intros m Hm. destruct (Z.eq_dec m k) as [-> | Hne].
      * exact E.
      * apply IH. lia.
Qed.

Lemma proof_of_work_Done (fuel : nat) (block b' : Block) (d : string) :
  proof_of_work fuel block = Done (b', d) ->
  exists n, 0 <= n /\ b' = set_nonce block n /\ d = compute_hash b' /\
            meets_difficulty d = true /\
            forall m, 0 <= m < n -> qualifies block m = false.
Proof.
  unfold proof_of_work. intros H.
  pose proof (proof_of_work_loop_spec fuel block 0) as S.
  rewrite H in S. destruct S as (n & Hn & Hb & Hd & Hq & Hmin).
  exists n. split; [lia |]. split; [exact Hb |]. split; [exact Hd |].
  split.
  - rewrite Hd, Hb. exact Hq.
  - intros m Hm. apply Hmin. lia.
Qed.

(** ** One call of [add_block], one call of [mine] *)

Lemma add_block_eq (self : Blockchain) (block tail : Block)
    (proof previous : string) :
  last_block self = Done tail -> hash tail = Some previous ->
  add_block self block proof =
  if negb (String.eqb previous (previous_hash block)) then
    Done (false, self, block)
  else if negb (is_valid_proof block proof) then
    Done (false, self, block)
  else
    Done (true,
          set_chain self (chain self ++ [set_hash block (Some proof)]),
          set_hash block (Some proof)).
Proof.
  intros Hl Hh. unfold add_block. rewrite Hl. simpl.
  apply get_hash_Done in Hh. rewrite Hh. reflexivity.
Qed.

Lemma add_block_cases (self : Blockchain) (block : Block) (proof : string)
    (r : bool * Blockchain * Block) :
  add_block self block proof = Done r ->
  exists tail previous,
    last_block self = Done tail /\ hash tail = Some previous /\
    ((previous <> previous_hash block \/ is_valid_proof block proof = false)
     /\ r = (false, self, block)
     \/
     previous = previous_hash block /\ is_valid_proof block proof = true /\
     r = (true,
          set_chain self (chain self ++ [set_hash block (Some proof)]),
          set_hash block (Some proof))).
Proof.
  intros H. pose proof H as H'. unfold add_block in H'.
  apply bind_Done in H'. destruct H' as (tail & Hl & H').
  apply bind_Done in H'. destruct H' as (previous & Hh & _).
  apply get_hash_Done in Hh.
  exists tail, previous. split; [exact Hl | split; [exact Hh |]].
  rewrite (add_block_eq self block tail proof previous Hl Hh) in H.
  destruct (String.eqb previous (previous_hash block)) eqn:Eq; simpl in H.
  - apply String.eqb_eq in Eq.
    destruct (is_valid_proof block proof) eqn:Ev; simpl in H;
      inversion H; subst r.
    + right. auto.
    + left. auto.
  - apply String.eqb_neq in Eq. inversion H. left. auto.
Qed.

(** What the candidate of [mine] is: built on the tail, with the nonce
    the search stopped at, and a proof that is valid for it. *)
Lemma mine_candidate_Done (fuel : nat) (now : pyfloat) (self : Blockchain)
    (new_block : Block) (proof : string) :
  mine_candidate fuel now self = Done (new_block, proof) ->
  exists tail previous n,
    last_block self = Done tail /\ hash tail = Some previous /\
    new_block =
      set_nonce (Block_init (index tail + 1) (unconfirmed_transactions self)
                            now previous) n /\
    is_valid_proof new_block proof = true.
Proof.
  unfold mine_candidate. intros H.
  apply bind_Done in H. destruct H as (tail & Hl & H).
  apply bind_Done in H. destruct H as (previous & Hh & H).
  apply get_hash_Done in Hh.
  apply proof_of_work_Done in H.
  destruct H as (n & _ & Hb & Hd & Hq & _).
  exists tail, previous, n. repeat split; try assumption.
  unfold is_valid_proof. fold (meets_difficulty proof).
  rewrite Hq, Hd, String.eqb_refl. reflexivity.
Qed.

(** Run on its own, [mine] never sees [add_block] fail: the candidate
    links to the tail it was built on and its proof is fresh. *)
Lemma mine_add_block_accepts (fuel : nat) (now : pyfloat) (self : Blockchain)
    (new_block : Block) (proof : string) :
  mine_candidate fuel now self = Done (new_block, proof) ->
  add_block self new_block proof =
  Done (true,
        set_chain self (chain self ++ [set_hash new_block (Some proof)]),
        set_hash new_block (Some proof)).
Proof.
  intros H. apply mine_candidate_Done in H.
  destruct H as (tail & previous & n & Hl & Hh & Hb & Hv).
  rewrite (add_block_eq self new_block tail proof previous Hl Hh).
  assert (Hp : previous_hash new_block = previous) by (rewrite Hb; reflexivity).
  rewrite Hp, String.eqb_refl, Hv. reflexivity.
Qed.

Lemma mine_Done (fuel : nat) (now : pyfloat) (self : Blockchain)
    (v : pyval) (self' : Blockchain) :
  mine fuel now self = Done (v, self') ->
  unconfirmed_transactions self = [] /\ v = PyFalse /\ self' = self
  \/
  unconfirmed_transactions self <> [] /\
  exists tail previous n proof,
    last_block self = Done tail /\ hash tail = Some previous /\
    let new_block :=
      set_nonce (Block_init (index tail + 1) (unconfirmed_transactions self)
                            now previous) n in
    is_valid_proof new_block proof = true /\
    v = PyInt (index tail + 1) /\
    self' = mkBlockchain [] (chain self ++ [set_hash new_block (Some proof)]).
Proof.
  unfold mine. destruct (unconfirmed_transactions self) as [| tx pool] eqn:E.
  - intros H. inversion H. left. auto.
  - intros H. right. split; [discriminate |].
    apply bind_Done in H. destruct H as ([new_block proof] & Hc & H).
    unfold mine_commit in H.
    rewrite (mine_add_block_accepts fuel now self new_block proof Hc) in H.
    simpl in H. inversion H. clear H.
    apply mine_candidate_Done in Hc.
    destruct Hc as (tail & previous & n & Hl & Hh & Hb & Hv).
    exists tail, previous, n, proof. rewrite E in Hb. subst new_block.
    repeat split; assumption.
Qed.

(** A step leaves the chain as it is or appends one block that links to
    the old tail and carries a valid proof. *)
Lemma step_chain (self : Blockchain) (o : op) (self' : Blockchain) :
  step self o self' ->
  chain self' = chain self
  \/
  exists init tail block proof,
    chain self = init ++ [tail] /\
    hash tail = Some (previous_hash block) /\
    is_valid_proof block proof = true /\
    chain self' = (init ++ [tail]) ++ [set_hash block (Some proof)] /\
    match o with
    | OpSubmit _ => False
    | OpMine _ => index block = index tail + 1 /\ hash block = None
    | OpAddBlock b p => b = block /\ p = proof
    end.
Proof.
  intros S. destruct S as [self tx | self now fuel v self' H
                          | self block proof ok self' block' H].
  - left. reflexivity.
  - apply mine_Done in H.
    destruct H as [(_ & _ & ->) | (_ & tail & previous & n & proof & H)].
    + left. reflexivity.
    + destruct H as (Hl & Hh & Hv & _ & ->).
      apply last_block_Done in Hl. destruct Hl as [init Hc].
      right.
      exists init, tail,
        (set_nonce (Block_init (index tail + 1)
                     (unconfirmed_transactions self) now previous) n), proof.
      split; [exact Hc |]. split; [exact Hh |]. split; [exact Hv |].
      split; [simpl; rewrite Hc; reflexivity | split; reflexivity].
  - apply add_block_cases in H.
    destruct H as (tail & previous & Hl & Hh & [[_ H] | (Hp & Hv & H)]);
      inversion H; subst.
    + left. reflexivity.
    + apply last_block_Done in Hl. destruct Hl as [init Hc].
      right. exists init, tail, block, proof.
      split; [exact Hc |]. split; [exact Hh |]. split; [exact Hv |].
      split; [simpl; rewrite Hc; reflexivity | auto].
Qed.

(** ** Invariants of the reachable states *)

Lemma reachable_by_weaken (A B : Blockchain -> op -> Prop) :
  (forall self o, A self o -> B self o) ->
  forall self, reachable_by A self -> reachable_by B self.
Proof.
  intros AB self R. induction R as [now | self o self' _ IH Ha Hs].
  - apply reach_init.
  - apply (reach_step B self o self' IH (AB self o Ha) Hs).
Qed.

Lemma chain_Blockchain_init (now : pyfloat) :
  chain (Blockchain_init now) =
  [set_hash (Block_init 0 [] now "0")
            (Some (compute_hash (Block_init 0 [] now "0")))].
Proof. reflexivity. Qed.

(** The chain is never empty and its tail has a hash: [last_block] and
    [.hash] cannot raise in [add_block] and [mine]. *)
Lemma reachable_tail (allowed : Blockchain -> op -> Prop) (self : Blockchain) :
  reachable_by allowed self ->
  exists tail previous, last_block self = Done tail /\ hash tail = Some previous.
Proof.
  intros R. induction R as [now | self o self' _ IH _ Hs].
  - eexists _, _. split; reflexivity.
  - destruct IH as (tail & previous & Hl & Hh).
    apply step_chain in Hs.
    destruct Hs as [E | (init & tail' & block & proof & _ & _ & _ & E & _)].
    + exists tail, previous. split; [| exact Hh].
      apply last_block_Done in Hl. apply last_block_Done.
      rewrite E. exact Hl.
    + exists (set_hash block (Some proof)), proof. split; [| reflexivity].
      apply last_block_Done. eexists. exact E.
Qed.

Lemma reachable_indexed (self : Blockchain) :
  reachable_by index_follows self -> indexed (chain self).
Proof.
  intros R. induction R as [now | self o self' _ IH Ha Hs].
  - rewrite chain_Blockchain_init. intros i b H.
    destruct i as [| i]; simpl in H.
    + inversion H. reflexivity.
    + destruct i; discriminate H.
  - apply step_chain in Hs.
    destruct Hs as [E | (init & tail & block & proof & Hc & _ & _ & E & Ho)].
    + rewrite E. exact IH.
    + rewrite E. rewrite Hc in IH. apply indexed_snoc; [exact IH |].
      destruct o as [tx | now | b p]; simpl in Ho.
      * contradiction.
      * exact (proj1 Ho).
      * destruct Ho as [-> ->]. destruct Ha as (tail' & Hl & Hi).
        assert (Hl' : last_block self = Done tail)
          by (apply last_block_Done; eexists; exact Hc).
        rewrite Hl in Hl'. inversion Hl'. subst tail'. exact Hi.
Qed.

Lemma is_valid_proof_true (block : Block) (proof : string) :
  is_valid_proof block proof = true ->
  meets_difficulty proof = true /\ proof = compute_hash block.
Proof.
  unfold is_valid_proof. fold (meets_difficulty proof). intros H.
  apply andb_true_iff in H. destruct H as [Hd He].
  apply String.eqb_eq in He. auto.
Qed.

(** Every block after the first meets the difficulty, whatever the
    candidates handed to [add_block]. *)
Lemma reachable_meets_difficulty (self : Blockchain) :
  reachable self ->
  forall i b, nth_error (chain self) i = Some b -> i <> 0%nat ->
              exists h, hash b = Some h /\ meets_difficulty h = true.
Proof.
  intros R. induction R as [now | self o self' _ IH _ Hs].
  - rewrite chain_Blockchain_init. intros i b H Hi.
    destruct i as [| [| i]]; [contradiction Hi; reflexivity | | ];
      discriminate H.
  - apply step_chain in Hs.
    destruct Hs as [E | (init & tail & block & proof & Hc & _ & Hv & E & _)].
    + rewrite E. exact IH.
    + rewrite E. rewrite Hc in IH. intros i b H Hi.
      apply nth_error_snoc in H. destruct H as [[_ H] | [_ H]].
      * exact (IH i b H Hi).
      * subst b. exists proof. split; [reflexivity |].
        apply is_valid_proof_true in Hv. exact (proj1 Hv).
Qed.

(** ** Reaching the concrete runs

    Each step is checked by evaluating the call. *)

Ltac reach_fresh :=
  refine (eq_ind (Blockchain_init Run.t0) (reachable_by _)
                 (reach_init _ Run.t0) Run.fresh _);
  vm_compute; reflexivity.

Ltac reach_submit s tx :=
  apply (reach_step _ s (OpSubmit tx));
  [ | exact I | exact (step_submit s tx) ].

Ltac reach_mine s now fuel v :=
  apply (reach_step _ s (OpMine now));
  [ | exact I | apply (step_mine s now fuel v); vm_compute; reflexivity ].

Ltac reach_add_block s b p :=
  apply (reach_step _ s (OpAddBlock b p));
  [ | | apply (step_add_block s b p true _ (set_hash b (Some p)));
        vm_compute; reflexivity ].

Ltac reach_mined :=
  reach_mine Run.pending_ab Run.t_mine 4%nat (PyInt 1);
  reach_submit Run.pending_a Run.tx_b;
  reach_submit Run.fresh Run.tx_a;
  reach_fresh.

Ltac reach_after_B_pending :=
  reach_submit Run.after_B Run.tx_b;
  reach_mine Run.pending_a Run.t_B 3%nat (PyInt 1);
  reach_submit Run.fresh Run.tx_a;
  reach_fresh.

(** ** Block.compute_hash *)

(** C2.  [compute_hash] is meant to be the SHA-256 hex digest of the five
    fields under sorted keys, [hash] left out whether or not one has been
    assigned.  The code serialises [self.__dict__]: on the genesis block
    of a fresh ledger, whose hash has been assigned, the text starts with
    the [hash] entry and the digest is not that of the five fields. *)
Lemma compute_hash_serialises_hash :
  hash Run.genesis = Some Run.genesis_hash /\
  spec_compute_hash Run.genesis = Run.genesis_hash /\
  startswith (block_string Run.genesis)
             ("{" ++ dquote ++ "hash" ++ dquote ++ ": ")%string = true /\
  compute_hash Run.genesis
  = "37d8aa79feb6c710d4d5eeb1b270b29479d1e73ddf4540191abb282e3b8ccdbe" /\
  compute_hash Run.genesis <> spec_compute_hash Run.genesis.
Proof.
  split; [reflexivity |].
  split; [vm_compute; reflexivity |].
  split; [vm_compute; reflexivity |].
  split; [vm_compute; reflexivity |].
  intros E. vm_compute in E. discriminate E.
Qed.

(** C9.  Two blocks with the same index, transactions, timestamp,
    previous_hash and nonce are meant to have the same digest, and the
    search the same outcome on them.  In the code the block [mine]
    stored and the candidate it was sealed from agree on the five fields
    and differ in digest; the search stops at nonce 4 on one and at
    nonce 6 on the other. *)
Lemma compute_hash_depends_on_hash_field :
  same_fields (set_nonce Run.candidate 4) Run.mined_block /\
  compute_hash (set_nonce Run.candidate 4) = Run.mined_hash /\
  compute_hash Run.mined_block
  = "f10c33e049201a1417c7d2fb98e746f5e6245c4f6622e0d6ee6ed7e5eb4c9064" /\
  proof_of_work 6 (set_nonce Run.candidate 4)
  = Done (set_nonce Run.candidate 4, Run.mined_hash) /\
  proof_of_work 6 Run.mined_block
  = Done (set_nonce Run.mined_block 6,
          "00a5157c55f9dcd39ccb81a65352e32365f43b23051c287a89914b694a18d18a").
Proof.
  split; [repeat split |].
  split; [vm_compute; reflexivity |].
  split; [vm_compute; reflexivity |].
  split; vm_compute; reflexivity.
Qed.

(** ** Blockchain.__init__ *)

(** C6.  A fresh ledger has one block, with index 0, previous_hash "0"
    and no transactions, and its stored hash is meant to equal
    [compute_hash()] recomputed on it.  The stored hash is the digest of
    the five fields; [compute_hash()] called on the stored block returns
    another digest. *)
Lemma genesis_recomputed_hash_differs :
  Blockchain_init Run.t0 = Run.fresh /\
  chain Run.fresh = [Run.genesis] /\
  index Run.genesis = 0 /\
  previous_hash Run.genesis = "0" /\
  transactions Run.genesis = [] /\
  hash Run.genesis = Some Run.genesis_hash /\
  spec_compute_hash Run.genesis = Run.genesis_hash /\
  compute_hash Run.genesis
  = "37d8aa79feb6c710d4d5eeb1b270b29479d1e73ddf4540191abb282e3b8ccdbe".
Proof.
  split; [vm_compute; reflexivity |].
  do 5 (split; [reflexivity |]).
  split; vm_compute; reflexivity.
Qed.

(** ** Blockchain.proof_of_work *)

(** C5.  When the search returns, the digest it returns is that of the
    block at the nonce it stopped at, it meets the difficulty, and no
    smaller non-negative nonce does, the other fields being fixed; and
    the search does return, within [n] increments, as soon as some
    nonce [n >= 0] meets the difficulty. *)
Theorem proof_of_work_least_nonce (block : Block) :
  (forall fuel block' digest,
      proof_of_work fuel block = Done (block', digest) ->
      exists n, 0 <= n /\ block' = set_nonce block n /\
                digest = compute_hash block' /\
                meets_difficulty digest = true /\
                forall m, 0 <= m < n -> qualifies block m = false)
  /\
  (forall n, 0 <= n -> qualifies block n = true ->
             exists block' digest,
               proof_of_work (Z.to_nat n) block = Done (block', digest)).
Proof.
  split.
  - intros fuel block' digest H. exact (proof_of_work_Done _ _ _ _ H).
  - intros n Hn Hq. unfold proof_of_work.
    pose proof (proof_of_work_loop_spec (Z.to_nat n) block 0) as S.
    destruct (proof_of_work_loop (Z.to_nat n) (set_nonce block 0))
      as [[b' d] | e | ].
    + exists b', d. reflexivity.
    + contradiction.
    + rewrite (S n) in Hq by lia. discriminate Hq.
Qed.

Lemma proof_of_work_least_nonce_witness :
  (exists n, 0 <= n /\ set_nonce Run.candidate 4 = set_nonce Run.candidate n /\
             Run.mined_hash = compute_hash (set_nonce Run.candidate 4) /\
             meets_difficulty Run.mined_hash = true /\
             forall m, 0 <= m < n -> qualifies Run.candidate m = false)
  /\
  (exists block' digest,
      proof_of_work (Z.to_nat 4) Run.candidate = Done (block', digest)).
Proof.
  split.
  - apply (proj1 (proof_of_work_least_nonce Run.candidate) 4%nat).
    vm_compute. reflexivity.
  - apply (proj2 (proof_of_work_least_nonce Run.candidate) 4).
    + lia.
    + vm_compute. reflexivity.
Defined.

(** ** Blockchain.add_block *)

(** C4.  In a reachable state, [add_block] on a candidate whose
    previous_hash is not the tail's hash, or with a proof that misses
    the difficulty prefix or is not the candidate's [compute_hash()],
    returns [False] without raising, and leaves the chain, the pending
    pool and the candidate (its [hash] included) as they were. *)
Theorem add_block_reject_atomic (self : Blockchain) (block : Block)
    (proof : string) :
  reachable self ->
  (forall tail, last_block self = Done tail ->
                hash tail <> Some (previous_hash block))
  \/ meets_difficulty proof = false
  \/ proof <> compute_hash block ->
  add_block self block proof = Done (false, self, block).
Proof.
  intros R H.
  destruct (reachable_tail any_call self R) as (tail & previous & Hl & Hh).
  rewrite (add_block_eq self block tail proof previous Hl Hh).
  destruct (String.eqb previous (previous_hash block)) eqn:Eq; simpl;
    [| reflexivity].
  apply String.eqb_eq in Eq.
  assert (Hv : is_valid_proof block proof = false).
  { unfold is_valid_proof. fold (meets_difficulty proof).
    destruct H as [H | [H | H]].
    - exfalso. apply (H tail Hl). rewrite Hh, Eq. reflexivity.
    - rewrite H. reflexivity.
    - apply String.eqb_neq in H. rewrite H. apply andb_false_r. }
  rewrite Hv. reflexivity.
Qed.

Lemma add_block_reject_atomic_witness :
  add_block Run.after_B_pending Run.candidate_A Run.proof_A
  = Done (false, Run.after_B_pending, Run.candidate_A).
Proof.
  apply add_block_reject_atomic.
  - reach_after_B_pending.
  - left. intros tail Hl. vm_compute in Hl. injection Hl as <-.
    vm_compute. discriminate.
Defined.

(** ** Blockchain.mine *)

(** Whatever [add_block] answers, [mine] empties the pool and returns the
    candidate's index. *)
Lemma mine_commit_ignores_result (self self1 : Blockchain)
    (block block1 : Block) (proof : string) (ok : bool) :
  add_block self block proof = Done (ok, self1, block1) ->
  mine_commit self block proof
  = Done (PyInt (index block), set_unconfirmed self1 []).
Proof.
  intros H. unfold mine_commit. rewrite H. simpl.
  apply add_block_cases in H.
  destruct H as (_ & _ & _ & _ & [[_ H] | (_ & _ & H)]);
    inversion H; reflexivity.
Qed.

(** C3.  [mine] is meant to clear the pool and return the new index only
    when [add_block] accepted, and to leave the pool alone and report
    failure otherwise.  Two calls overlap on a ledger with one pending
    transaction: A builds its candidate and proof, B mines a block,
    a transaction is submitted, and A goes on.  [add_block] refuses A's
    candidate, yet A's call empties the pool, dropping the transaction
    just submitted, and returns 1. *)
Lemma mine_drops_add_block_result :
  mine_candidate 1 Run.t_A Run.pending_a
  = Done (Run.candidate_A, Run.proof_A) /\
  mine 3 Run.t_B Run.pending_a = Done (PyInt 1, Run.after_B) /\
  add_new_transaction Run.after_B Run.tx_b = Run.after_B_pending /\
  add_block Run.after_B_pending Run.candidate_A Run.proof_A
  = Done (false, Run.after_B_pending, Run.candidate_A) /\
  mine_commit Run.after_B_pending Run.candidate_A Run.proof_A
  = Done (PyInt 1, Run.after_B) /\
  unconfirmed_transactions Run.after_B_pending = [Run.tx_b] /\
  unconfirmed_transactions Run.after_B = [].
Proof.
  split; [vm_compute; reflexivity |].
  split; [vm_compute; reflexivity |].
  split; [reflexivity |].
  split; [vm_compute; reflexivity |].
  split; [vm_compute; reflexivity |].
  split; reflexivity.
Qed.

(** ** The chain in the reachable states *)

(** C7.  In every state reached from a fresh ledger by
    [add_new_transaction], [mine] and [add_block], each block after the
    first has the hash of the block before it as its previous_hash. *)
Theorem chain_linked (self : Blockchain) :
  reachable self ->
  forall i prev b,
    nth_error (chain self) i = Some prev ->
    nth_error (chain self) (S i) = Some b ->
    hash prev = Some (previous_hash b).
Proof.
  intros R. change (linked (chain self)). unfold reachable in R.
  induction R as [now | self o self' _ IH _ Hs].
  - rewrite chain_Blockchain_init. intros i prev b Hp Hb.
    destruct i; discriminate Hb.
  - apply step_chain in Hs.
    destruct Hs as [E | (init & tail & block & proof & Hc & Hh & _ & E & _)].
    + rewrite E. exact IH.
    + rewrite E. rewrite Hc in IH. apply linked_snoc; assumption.
Qed.

Lemma chain_linked_witness :
  hash Run.genesis = Some (previous_hash Run.mined_block).
Proof.
  apply (chain_linked Run.mined) with (i := 0%nat).
  - reach_mined.
  - reflexivity.
  - reflexivity.
Defined.

(** C8, as stated, fails: [add_block] does not look at the index.  A
    block built outside with index 7 on top of genesis, with the proof
    its search gives, is accepted at position 1. *)
Lemma index_claim_fails :
  proof_of_work 1 (Block_init 7 [] Run.t_out7 Run.genesis_hash)
  = Done (Run.outside7, Run.outside7_hash) /\
  add_block Run.fresh Run.outside7 Run.outside7_hash
  = Done (true, Run.with_outside7,
          set_hash Run.outside7 (Some Run.outside7_hash)) /\
  reachable Run.with_outside7 /\
  ~ indexed (chain Run.with_outside7).
Proof.
  split; [vm_compute; reflexivity |].
  split; [vm_compute; reflexivity |].
  split.
  - reach_add_block Run.fresh Run.outside7 Run.outside7_hash.
    + reach_fresh.
    + exact I.
  - intros I.
    specialize (I 1%nat (set_hash Run.outside7 (Some Run.outside7_hash))
                  eq_refl).
    vm_compute in I. discriminate I.
Qed.

(** C8, amended.  In every state reached from a fresh ledger by
    [add_new_transaction], [mine], and [add_block] on candidates whose
    index is the tail's plus one, the block at position i has index i;
    indices are non-negative and the first block has index 0. *)
Theorem chain_indexed (self : Blockchain) :
  reachable_by index_follows self ->
  forall i b,
    nth_error (chain self) i = Some b ->
    index b = Z.of_nat i /\ 0 <= index b.
Proof.
  intros R i b H. pose proof (reachable_indexed self R i b H) as E.
  split; [exact E | lia].
Qed.

Lemma chain_indexed_witness :
  index Run.mined_block = Z.of_nat 1 /\ 0 <= index Run.mined_block.
Proof.
  apply (chain_indexed Run.mined).
  - reach_mined.
  - reflexivity.
Defined.

(** The indices in the chain are not negative as long as those of the
    candidates handed to [add_block] are not. *)
Lemma reachable_non_negative (self : Blockchain) :
  reachable_by index_non_negative self ->
  forall b, In b (chain self) -> 0 <= index b.
Proof.
  intros R. induction R as [now | self o self' _ IH Ha Hs].
  - rewrite chain_Blockchain_init. intros b [<- | []]. simpl. lia.
  - apply step_chain in Hs.
    destruct Hs as [E | (init & tail & block & proof & Hc & _ & _ & E & Ho)].
    + rewrite E. exact IH.
    + rewrite E, <- Hc. intros b Hin. apply in_app_or in Hin.
      destruct Hin as [Hin | [<- | []]]; [exact (IH b Hin) |].
      change (0 <= index block).
      destruct o as [tx | now | b0 p]; simpl in Ho.
      * contradiction.
      * destruct Ho as [Hi _].
        assert (Ht : 0 <= index tail).
        { apply IH. rewrite Hc. apply in_or_app. right. left. reflexivity. }
        lia.
      * destruct Ho as [-> _]. exact Ha.
Qed.

(** C10.  In every state reached from a fresh ledger by
    [add_new_transaction], [mine] and [add_block], the indices of the
    blocks handed to [add_block] being non-negative as block indices
    are, the value a [mine] that finds the pool non-empty returns is an
    integer of at least 1: it is truthy and not equal to the [False]
    returned for an empty pool. *)
Theorem mine_result_positive (self : Blockchain) (fuel : nat) (now : pyfloat)
    (v : pyval) (self' : Blockchain) :
  reachable_by index_non_negative self ->
  unconfirmed_transactions self <> [] ->
  mine fuel now self = Done (v, self') ->
  exists n, v = PyInt n /\ 1 <= n /\
            truthy v = true /\ py_eq v PyFalse = false.
Proof.
  intros R Hp H. apply mine_Done in H.
  destruct H as [(He & _) | (_ & tail & previous & n & proof & H)];
    [contradiction |].
  destruct H as (Hl & _ & _ & -> & _).
  apply last_block_Done in Hl. destruct Hl as [init Hc].
  assert (Ht : 0 <= index tail).
  { apply (reachable_non_negative self R). rewrite Hc.
    apply in_or_app. right. left. reflexivity. }
  exists (index tail + 1). split; [reflexivity |]. split; [lia |].
  assert (Hz : (index tail + 1 =? 0) = false) by (apply Z.eqb_neq; lia).
  simpl. rewrite Hz. split; reflexivity.
Qed.

Lemma mine_result_positive_witness :
  exists n, PyInt 8 = PyInt n /\ 1 <= n /\
            truthy (PyInt 8) = true /\ py_eq (PyInt 8) PyFalse = false.
Proof.
  apply (mine_result_positive RunOutside.pending 2%nat RunOutside.t_mine
                              (PyInt 8) RunOutside.mined).
  - reach_submit Run.with_outside7 Run.tx_a.
    reach_add_block Run.fresh Run.outside7 Run.outside7_hash.
    + reach_fresh.
    + simpl. lia.
  - discriminate.
  - vm_compute. reflexivity.
Defined.

(** The bound on the candidates cannot be dropped.  [add_block] does not
    look at the index: it accepts a block built outside with index -1,
    a value no block index takes, and [mine] then appends a block and
    returns 0. *)
Lemma mine_returns_zero :
  reachable Run.with_outside_neg_pending /\
  mine 2 Run.t_neg_mine Run.with_outside_neg_pending
  = Done (PyInt 0, Run.mined_on_neg) /\
  truthy (PyInt 0) = false /\
  py_eq (PyInt 0) PyFalse = true.
Proof.
  split.
  - reach_submit Run.with_outside_neg Run.tx_a.
    reach_add_block Run.fresh Run.outside_neg Run.outside_neg_hash.
    + reach_fresh.
    + exact I.
  - split; [vm_compute; reflexivity |]. split; reflexivity.
Qed.

(** C1, as stated, fails twice.  The genesis block is stored with the
    digest of its fields, with no search: its hash does not meet the
    difficulty.  And [compute_hash()] recomputed on a stored block,
    genesis or mined, is not the stored hash. *)
Lemma stored_hash_claim_fails :
  reachable Run.mined /\
  ~ sealed_as_recomputed (chain Run.mined) /\
  nth_error (chain Run.mined) 0 = Some Run.genesis /\
  hash Run.genesis = Some Run.genesis_hash /\
  meets_difficulty Run.genesis_hash = false /\
  nth_error (chain Run.mined) 1 = Some Run.mined_block /\
  hash Run.mined_block = Some Run.mined_hash /\
  meets_difficulty Run.mined_hash = true /\
  compute_hash Run.mined_block <> Run.mined_hash.
Proof.
  split; [reach_mined |].
  split.
  - intros S. destruct (S 0%nat Run.genesis eq_refl) as (h & Hh & Hd & _).
    injection Hh as <-. vm_compute in Hd. discriminate Hd.
  - do 2 (split; [reflexivity |]). split; [vm_compute; reflexivity |].
    do 2 (split; [reflexivity |]). split; [vm_compute; reflexivity |].
    intros E. vm_compute in E. discriminate E.
Qed.

(** C1, amended.  In every state reached from a fresh ledger by
    [add_new_transaction], [mine], and [add_block] on candidates that
    carry no hash yet, every block has a stored hash; that of every
    block after the first starts with [difficulty] zeros; and that of
    every block, the first included, is the SHA-256 digest of the
    block's index, transactions, timestamp, previous_hash and nonce
    under sorted keys. *)
Theorem stored_hash_sealed (self : Blockchain) :
  reachable_by unsealed_candidate self ->
  forall i b,
    nth_error (chain self) i = Some b ->
    exists h, hash b = Some h /\
              (i <> 0%nat -> meets_difficulty h = true) /\
              h = spec_compute_hash b.
Proof.
  intros R. change (sealed (chain self)).
  induction R as [now | self o self' _ IH Ha Hs].
  - rewrite chain_Blockchain_init. intros i b H.
    destruct i as [| i]; simpl in H.
    + inversion H. eexists. split; [reflexivity |]. split.
      * intros Hi. contradiction Hi. reflexivity.
      * rewrite spec_compute_hash_set_hash.
        apply compute_hash_no_hash. reflexivity.
    + destruct i; discriminate H.
  - apply step_chain in Hs.
    destruct Hs as [E | (init & tail & block & proof & Hc & _ & Hv & E & Ho)].
    + rewrite E. exact IH.
    + rewrite E. rewrite Hc in IH. intros i b H.
      apply nth_error_snoc in H. destruct H as [[_ H] | [Hi H]].
      * exact (IH i b H).
      * subst b. exists proof. split; [reflexivity |].
        apply is_valid_proof_true in Hv. destruct Hv as [Hd He].
        split; [intros _; exact Hd |].
        rewrite spec_compute_hash_set_hash, He.
        apply compute_hash_no_hash.
        destruct o as [tx | now | b p]; simpl in Ho.
        -- contradiction.
        -- exact (proj2 Ho).
        -- destruct Ho as [-> _]. exact Ha.
Qed.

Lemma stored_hash_sealed_witness :
  exists h, hash Run.mined_block = Some h /\
            (1%nat <> 0%nat -> meets_difficulty h = true) /\
            h = spec_compute_hash Run.mined_block.
Proof.
  apply (stored_hash_sealed Run.mined).
  - reach_mined.
  - reflexivity.
Defined.

(** * Further properties of the ledger *)

(** ** add_block and proof_of_work together *)

(** X1.  A call of [add_block] that returns leaves the pending pool as
    it was; it answers [False] and changes neither chain nor candidate,
    or answers [True], gives the candidate the proof as its hash and
    appends it, the chain growing by exactly that block. *)
Theorem add_block_appends_or_keeps (self : Blockchain) (block : Block)
    (proof : string) (ok : bool) (self' : Blockchain) (block' : Block) :
  add_block self block proof = Done (ok, self', block') ->
  unconfirmed_transactions self' = unconfirmed_transactions self /\
  (ok = false /\ chain self' = chain self /\ block' = block
   \/
   ok = true /\ block' = set_hash block (Some proof) /\
   chain self' = chain self ++ [block'] /\
   List.length (chain self') = S (List.length (chain self))).
Proof.
  intros H. apply add_block_cases in H.
  destruct H as (tail & previous & _ & _ & [[_ H] | (_ & _ & H)]);
    inversion H; subst; clear H.
  - split; [reflexivity |]. left. auto.
  - split; [reflexivity |]. right.
    split; [reflexivity |]. split; [reflexivity |]. split; [reflexivity |].
    simpl. rewrite length_app. simpl. lia.
Qed.

Lemma add_block_appends_or_keeps_witness :
  unconfirmed_transactions Run.with_outside7
  = unconfirmed_transactions Run.fresh /\
  (true = false /\ chain Run.with_outside7 = chain Run.fresh /\
   set_hash Run.outside7 (Some Run.outside7_hash) = Run.outside7
   \/
   true = true /\
   set_hash Run.outside7 (Some Run.outside7_hash)
   = set_hash Run.outside7 (Some Run.outside7_hash) /\
   chain Run.with_outside7
   = chain Run.fresh ++ [set_hash Run.outside7 (Some Run.outside7_hash)] /\
   List.length (chain Run.with_outside7) = S (List.length (chain Run.fresh))).
Proof.
  apply (add_block_appends_or_keeps Run.fresh Run.outside7
                                    Run.outside7_hash).
  vm_compute. reflexivity.
Defined.

(** X2.  What [proof_of_work] returns for a block built on the tail is
    always accepted: handed to [add_block] with the block as the search
    left it, it is appended and [True] is returned. *)
Theorem searched_block_accepted (self : Blockchain) (tail block : Block)
    (fuel : nat) (block' : Block) (digest : string) :
  last_block self = Done tail ->
  hash tail = Some (previous_hash block) ->
  proof_of_work fuel block = Done (block', digest) ->
  add_block self block' digest
  = Done (true,
          set_chain self (chain self ++ [set_hash block' (Some digest)]),
          set_hash block' (Some digest)).
Proof.
  intros Hl Hh Hp. apply proof_of_work_Done in Hp.
  destruct Hp as (n & _ & Hb & Hd & Hm & _).
  rewrite (add_block_eq self block' tail digest (previous_hash block) Hl Hh).
  assert (E : previous_hash block' = previous_hash block)
    by (rewrite Hb; reflexivity).
  rewrite E, String.eqb_refl. simpl.
  assert (Hv : is_valid_proof block' digest = true).
  { unfold is_valid_proof. fold (meets_difficulty digest).
    rewrite Hm, Hd, String.eqb_refl. reflexivity. }
  rewrite Hv. reflexivity.
Qed.

Lemma searched_block_accepted_witness :
  add_block Run.fresh Run.outside7 Run.outside7_hash
  = Done (true,
          set_chain Run.fresh
            (chain Run.fresh ++ [set_hash Run.outside7 (Some Run.outside7_hash)]),
          set_hash Run.outside7 (Some Run.outside7_hash)).
Proof.
  apply (searched_block_accepted Run.fresh Run.genesis
           (Block_init 7 [] Run.t_out7 Run.genesis_hash) 1%nat).
  - reflexivity.
  - reflexivity.
  - vm_compute. reflexivity.
Defined.

(** ** mine *)

(** X3.  A [mine] that finds the pool non-empty and returns has appended
    exactly one block: its index is the tail's plus one, its
    transactions are the pool as it was, in order, its timestamp the
    clock read, its previous_hash the tail's hash; its hash meets the
    difficulty and is the digest of its five fields.  The pool is empty
    afterwards and the value returned is the block's index. *)
Theorem mine_appends_pending (self : Blockchain) (fuel : nat) (now : pyfloat)
    (v : pyval) (self' : Blockchain) :
  unconfirmed_transactions self <> [] ->
  mine fuel now self = Done (v, self') ->
  exists tail b h,
    last_block self = Done tail /\
    chain self' = chain self ++ [b] /\
    unconfirmed_transactions self' = [] /\
    v = PyInt (index b) /\
    index b = index tail + 1 /\
    transactions b = unconfirmed_transactions self /\
    timestamp b = now /\
    hash tail = Some (previous_hash b) /\
    hash b = Some h /\ meets_difficulty h = true /\ h = spec_compute_hash b.
Proof.
  intros Hp H. apply mine_Done in H.
  destruct H as [(He & _) | (_ & tail & previous & n & proof & H)];
    [contradiction |].
  destruct H as (Hl & Hh & Hv & -> & ->).
  apply is_valid_proof_true in Hv. destruct Hv as [Hm Hd].
  eexists tail, _, proof. split; [exact Hl |].
  split; [reflexivity |]. split; [reflexivity |].
  split; [reflexivity |]. split; [reflexivity |].
  split; [reflexivity |]. split; [reflexivity |].
  split; [exact Hh |]. split; [reflexivity |]. split; [exact Hm |].
  rewrite spec_compute_hash_set_hash, Hd.
  apply compute_hash_no_hash. reflexivity.
Qed.

Lemma mine_appends_pending_witness :
  exists tail b h,
    last_block Run.pending_ab = Done tail /\
    chain Run.mined = chain Run.pending_ab ++ [b] /\
    unconfirmed_transactions Run.mined = [] /\
    PyInt 1 = PyInt (index b) /\
    index b = index tail + 1 /\
    transactions b = unconfirmed_transactions Run.pending_ab /\
    timestamp b = Run.t_mine /\
    hash tail = Some (previous_hash b) /\
    hash b = Some h /\ meets_difficulty h = true /\ h = spec_compute_hash b.
Proof.
  apply (mine_appends_pending Run.pending_ab 4%nat Run.t_mine).
  - discriminate.
  - vm_compute. reflexivity.
Defined.

Lemma proof_of_work_never_raises (fuel : nat) (block : Block) (e : exn) :
  proof_of_work fuel block <> Raise e.
Proof.
  unfold proof_of_work. intros H.
  pose proof (proof_of_work_loop_spec fuel block 0) as S.
  rewrite H in S. exact S.
Qed.

(** X4.  In a reachable state [mine] never raises; and when some nonce
    [n >= 0] meets the difficulty for the candidate it builds, [mine]
    returns within [n] increments of the nonce. *)
Theorem mine_never_raises (self : Blockchain) (now : pyfloat) :
  reachable self ->
  (forall fuel e, mine fuel now self <> Raise e) /\
  (forall tail previous n,
      last_block self = Done tail -> hash tail = Some previous ->
      0 <= n ->
      qualifies (Block_init (index tail + 1) (unconfirmed_transactions self)
                            now previous) n = true ->
      exists v self', mine (Z.to_nat n) now self = Done (v, self')).
Proof.
  intros R.
  destruct (reachable_tail any_call self R) as (tail & previous & Hl & Hh).
  assert (Hg : get_hash tail = Done previous) by (apply get_hash_Done; exact Hh).
  split.
  - intros fuel e. unfold mine.
    destruct (unconfirmed_transactions self) as [| tx pool] eqn:Ep;
      [discriminate |].
    destruct (mine_candidate fuel now self) as [[nb proof] | e' | ] eqn:Ec;
      simpl.
    + unfold mine_commit.
      rewrite (mine_add_block_accepts fuel now self nb proof Ec). discriminate.
    + exfalso. unfold mine_candidate in Ec. rewrite Hl in Ec. simpl in Ec.
      rewrite Hg in Ec. simpl in Ec.
      exact (proof_of_work_never_raises _ _ _ Ec).
    + discriminate.
  - intros tail' previous' n Hl' Hh' Hn Hq.
    rewrite Hl in Hl'. inversion Hl'. subst tail'.
    rewrite Hh in Hh'. inversion Hh'. subst previous'.
    unfold mine.
    destruct (unconfirmed_transactions self) as [| tx pool] eqn:Ep.
    + eexists _, _. reflexivity.
    + set (c := Block_init (index tail + 1) (tx :: pool) now previous) in *.
      assert (Hs := proof_of_work_loop_spec (Z.to_nat n) c 0).
      assert (Ec : mine_candidate (Z.to_nat n) now self
                   = proof_of_work (Z.to_nat n) c).
      { unfold mine_candidate. rewrite Hl. simpl. rewrite Hg. simpl.
        rewrite Ep. reflexivity. }
      unfold proof_of_work in Ec.
      destruct (proof_of_work_loop (Z.to_nat n) (set_nonce c 0))
        as [[nb proof] | e | ].
      * rewrite Ec. simpl. unfold mine_commit.
        rewrite (mine_add_block_accepts (Z.to_nat n) now self nb proof Ec).
        simpl. eexists _, _. reflexivity.
      * contradiction.
      * rewrite (Hs n) in Hq by lia. discriminate Hq.
Qed.

Lemma mine_never_raises_witness :
  (forall fuel e, mine fuel Run.t_mine Run.pending_ab <> Raise e) /\
  (exists v self', mine (Z.to_nat 4) Run.t_mine Run.pending_ab
                   = Done (v, self')).
Proof.
  assert (R : reachable Run.pending_ab).
  { reach_submit Run.pending_a Run.tx_b.
    reach_submit Run.fresh Run.tx_a.
    reach_fresh. }
  split.
  - exact (proj1 (mine_never_raises Run.pending_ab Run.t_mine R)).
  - apply (proj2 (mine_never_raises Run.pending_ab Run.t_mine R)
             Run.genesis Run.genesis_hash 4).
    + reflexivity.
    + reflexivity.
    + lia.
    + vm_compute. reflexivity.
Defined.

(** X5.  [mine] answers [False] exactly when the pool is empty, and
    then the ledger is as it was: no block, no change of the pool. *)
Theorem mine_false_iff_empty (self : Blockchain) (fuel : nat) (now : pyfloat)
    (v : pyval) (self' : Blockchain) :
  mine fuel now self = Done (v, self') ->
  (v = PyFalse <-> unconfirmed_transactions self = []) /\
  (unconfirmed_transactions self = [] -> self' = self).
Proof.
  intros H. apply mine_Done in H.
  destruct H as [(He & -> & ->) | (Hne & tail & previous & n & proof & H)].
  - split; [split; auto | auto].
  - destruct H as (_ & _ & _ & -> & _).
    split; [split |]; intros E; [discriminate E | contradiction | contradiction].
Qed.

Lemma mine_false_iff_empty_witness :
  (PyFalse = PyFalse <-> unconfirmed_transactions Run.fresh = []) /\
  (unconfirmed_transactions Run.fresh = [] -> Run.fresh = Run.fresh).
Proof.
  apply (mine_false_iff_empty Run.fresh 0%nat Run.t_mine).
  reflexivity.
Defined.

(** ** The chain over several calls *)

Lemma nth_error_app_keep {A : Type} (c ext : list A) (i : nat) (x : A) :
  nth_error c i = Some x -> nth_error (c ++ ext) i = Some x.
Proof.
  intros H. rewrite nth_error_app1; [exact H |].
  apply nth_error_Some. rewrite H. discriminate.
Qed.

(** X6.  The chain is append-only: over any sequence of calls to
    [add_new_transaction], [mine] and [add_block], with any candidates
    and proofs, every block stays at its position, unchanged; the chain
    grows by at most one block per call. *)
Theorem chain_append_only (self : Blockchain) (os : list op)
    (self' : Blockchain) :
  steps self os self' ->
  (exists added, chain self' = chain self ++ added /\
                 (List.length added <= List.length os)%nat) /\
  (forall i b, nth_error (chain self) i = Some b ->
               nth_error (chain self') i = Some b).
Proof.
  intros S.
  assert (P : exists added, chain self' = chain self ++ added /\
                            (List.length added <= List.length os)%nat).
  { induction S as [self | self o self1 os self' Hs _ IH].
    - exists []. rewrite app_nil_r. split; [reflexivity | simpl; lia].
    - destruct IH as (added & E & Hlen). apply step_chain in Hs.
      destruct Hs as [E1 | (init & tail & block & proof & Hc & _ & _ & E1 & _)].
      + exists added. rewrite E, E1. split; [reflexivity | simpl; lia].
      + exists (set_hash block (Some proof) :: added).
        rewrite E, E1, Hc, <- app_assoc. split; [reflexivity | simpl; lia]. }
  split; [exact P |].
  destruct P as (added & E & _). intros i b H. rewrite E.
  apply nth_error_app_keep. exact H.
Qed.

Lemma chain_append_only_witness :
  (exists added, chain Run.mined = chain Run.fresh ++ added /\
                 (List.length added
                  <= List.length [OpSubmit Run.tx_a; OpSubmit Run.tx_b;
                                  OpMine Run.t_mine])%nat) /\
  (forall i b, nth_error (chain Run.fresh) i = Some b ->
               nth_error (chain Run.mined) i = Some b).
Proof.
  apply chain_append_only.
  apply (steps_cons _ _ Run.pending_a); [exact (step_submit _ _) |].
  apply (steps_cons _ _ Run.pending_ab);
    [exact (step_submit Run.pending_a Run.tx_b) |].
  apply (steps_cons _ _ Run.mined);
    [apply (step_mine _ _ 4%nat (PyInt 1)); vm_compute; reflexivity |].
  apply steps_nil.
Defined.

(** X7.  In every reachable state the block at position 0 is the
    genesis block the constructor made: index 0, no transactions,
    previous_hash "0", nonce 0, and as hash the digest of these
    fields. *)
Theorem genesis_stays_first (self : Blockchain) :
  reachable self ->
  exists g, nth_error (chain self) 0 = Some g /\
            index g = 0 /\ transactions g = [] /\
            previous_hash g = "0" /\ nonce g = 0 /\
            hash g = Some (spec_compute_hash g).
Proof.
  intros R. unfold reachable in R.
  induction R as [now | self o self' _ IH _ Hs].
  - eexists. split; [reflexivity |]. do 4 (split; [reflexivity |]).
    exact (f_equal Some
             (compute_hash_no_hash (Block_init 0 [] now "0") eq_refl)).
  - destruct IH as (g & Hg & P). exists g. split; [| exact P].
    apply step_chain in Hs.
    destruct Hs as [E | (init & tail & block & proof & Hc & _ & _ & E & _)].
    + rewrite E. exact Hg.
    + rewrite E, <- Hc. apply nth_error_app_keep. exact Hg.
Qed.

Lemma genesis_stays_first_witness :
  exists g, nth_error (chain Run.mined) 0 = Some g /\
            index g = 0 /\ transactions g = [] /\
            previous_hash g = "0" /\ nonce g = 0 /\
            hash g = Some (spec_compute_hash g).
Proof.
  apply genesis_stays_first. reach_mined.
Defined.

Lemma submissions_pool (txs : list json) :
  forall self,
    unconfirmed_transactions (fold_left add_new_transaction txs self)
    = unconfirmed_transactions self ++ txs /\
    chain (fold_left add_new_transaction txs self) = chain self.
Proof.
  induction txs as [| tx txs IH]; intros self; simpl.
  - rewrite app_nil_r. auto.
  - destruct (IH (add_new_transaction self tx)) as [Hp Hc].
    rewrite Hp, Hc. simpl. rewrite <- app_assoc. auto.
Qed.

(** X8.  Submissions reach the next block whole and in order: after the
    records [txs] have been submitted one by one to a ledger whose pool
    was empty, a [mine] that returns appends one block whose
    transactions are exactly [txs], and empties the pool. *)
Theorem submissions_mined_in_order (self : Blockchain) (txs : list json)
    (fuel : nat) (now : pyfloat) (v : pyval) (self' : Blockchain) :
  unconfirmed_transactions self = [] ->
  txs <> [] ->
  mine fuel now (fold_left add_new_transaction txs self) = Done (v, self') ->
  exists b, chain self' = chain self ++ [b] /\
            transactions b = txs /\
            unconfirmed_transactions self' = [].
Proof.
  intros He Hne H.
  destruct (submissions_pool txs self) as [Hp Hc]. rewrite He in Hp.
  simpl in Hp. apply mine_Done in H.
  destruct H as [(E & _) | (_ & tail & previous & n & proof & H)].
  - rewrite Hp in E. contradiction.
  - destruct H as (_ & _ & _ & _ & ->). eexists. rewrite Hc, Hp.
    split; [reflexivity |]. split; reflexivity.
Qed.

Lemma submissions_mined_in_order_witness :
  exists b, chain Run.mined = chain Run.fresh ++ [b] /\
            transactions b = [Run.tx_a; Run.tx_b] /\
            unconfirmed_transactions Run.mined = [].
Proof.
  apply (submissions_mined_in_order Run.fresh [Run.tx_a; Run.tx_b] 4%nat
                                    Run.t_mine (PyInt 1)).
  - reflexivity.
  - discriminate.
  - vm_compute. reflexivity.
Defined.

(** * Properties of the request handlers *)

(** ** new_transaction *)

Lemma dict_lookup_set_same (d : list (string * json)) (k : string) (v : json) :
  dict_lookup (dict_set d k v) k = Some v.
Proof.
  induction d as [| [k' v'] d IH]; simpl.
  - rewrite String.eqb_refl. reflexivity.
  - destruct (String.eqb k' k) eqn:E; simpl; rewrite E; [reflexivity | exact IH].
Qed.

Lemma dict_lookup_set_other (d : list (string * json)) (k k1 : string)
    (v : json) :
  k1 <> k -> dict_lookup (dict_set d k v) k1 = dict_lookup d k1.
Proof.
  intros Hne. induction d as [| [k' v'] d IH]; simpl.
  - assert (E : String.eqb k k1 = false)
      by (apply String.eqb_neq; congruence).
    rewrite E. reflexivity.
  - destruct (String.eqb k' k) eqn:E; simpl.
    + apply String.eqb_eq in E. subst k'.
      assert (E1 : String.eqb k k1 = false)
        by (apply String.eqb_neq; congruence).
      rewrite E1. reflexivity.
    + destruct (String.eqb k' k1); [reflexivity | exact IH].
Qed.

Lemma fields_present_required (d : list (string * json)) :
  fields_present d required_fields
  = json_truthy (dict_get d "author") && json_truthy (dict_get d "content").
Proof.
  unfold required_fields. simpl.
  destruct (json_truthy (dict_get d "author"));
    destruct (json_truthy (dict_get d "content")); reflexivity.
Qed.

Lemma stamped_after_set (d : list (string * json)) (now : pyfloat) :
  json_truthy (dict_get d "author") = true ->
  json_truthy (dict_get d "content") = true ->
  stamped_record (JDict (dict_set d "timestamp" (JFloat now))).
Proof.
  intros Ha Hc. exists (dict_set d "timestamp" (JFloat now)), now.
  split; [reflexivity |].
  unfold dict_get in *.
  rewrite !dict_lookup_set_other by discriminate.
  split; [exact Ha |]. split; [exact Hc |].
  apply dict_lookup_set_same.
Qed.

(** X9.  [new_transaction] answers only for a body that is a
    dictionary.  It answers 201 "Success" exactly when author and
    content are both present and truthy, and then leaves the chain
    alone and puts one record, the body stamped with the clock, at the
    end of the pool; otherwise it answers 404 and the ledger is as it
    was. *)
Theorem new_transaction_accepts_iff (now : pyfloat) (tx_data : json)
    (blockchain : Blockchain) (body : string) (status : Z)
    (blockchain' : Blockchain) :
  new_transaction now tx_data blockchain = Done (body, status, blockchain') ->
  exists d,
    tx_data = JDict d /\
    (status = 201 /\ body = "Success" /\
     json_truthy (dict_get d "author") = true /\
     json_truthy (dict_get d "content") = true /\
     chain blockchain' = chain blockchain /\
     unconfirmed_transactions blockchain'
     = unconfirmed_transactions blockchain
       ++ [JDict (dict_set d "timestamp" (JFloat now))]
     \/
     status = 404 /\ body = "Invalid transaction data" /\
     (json_truthy (dict_get d "author") = false \/
      json_truthy (dict_get d "content") = false) /\
     blockchain' = blockchain).
Proof.
  unfold new_transaction. destruct tx_data as [| | | | | | d];
    try discriminate.
  rewrite fields_present_required. intros H. exists d.
  split; [reflexivity |].
  destruct (json_truthy (dict_get d "author")) eqn:Ea;
    destruct (json_truthy (dict_get d "content")) eqn:Ec;
    simpl in H; inversion H; subst; clear H.
  - left. repeat split; reflexivity.
  - right. repeat split; auto.
  - right. repeat split; auto.
  - right. repeat split; auto.
Qed.

Lemma new_transaction_accepts_iff_witness :
  exists d,
    JDict [("author", JStr "a"); ("content", JStr "")] = JDict d /\
    (404 = 201 /\ "Invalid transaction data" = "Success" /\
     json_truthy (dict_get d "author") = true /\
     json_truthy (dict_get d "content") = true /\
     chain Run.fresh = chain Run.fresh /\
     unconfirmed_transactions Run.fresh
     = unconfirmed_transactions Run.fresh
       ++ [JDict (dict_set d "timestamp" (JFloat Run.t_A))]
     \/
     404 = 404 /\ "Invalid transaction data" = "Invalid transaction data" /\
     (json_truthy (dict_get d "author") = false \/
      json_truthy (dict_get d "content") = false) /\
     Run.fresh = Run.fresh).
Proof.
  apply (new_transaction_accepts_iff Run.t_A
           (JDict [("author", JStr "a"); ("content", JStr "")]) Run.fresh).
  reflexivity.
Defined.

(** X10.  The record an accepted request adds carries the server's clock
    under "timestamp", whatever the body said there, and every other
    key with the value the body gave it; it is a stamped record. *)
Theorem new_transaction_stamps_clock (now : pyfloat)
    (d : list (string * json)) (blockchain : Blockchain) (body : string)
    (blockchain' : Blockchain) :
  new_transaction now (JDict d) blockchain = Done (body, 201, blockchain') ->
  exists d',
    unconfirmed_transactions blockchain'
    = unconfirmed_transactions blockchain ++ [JDict d'] /\
    dict_lookup d' "timestamp" = Some (JFloat now) /\
    (forall k, k <> "timestamp" -> dict_lookup d' k = dict_lookup d k) /\
    stamped_record (JDict d').
Proof.
  unfold new_transaction. rewrite fields_present_required. intros H.
  destruct (json_truthy (dict_get d "author")) eqn:Ha;
    destruct (json_truthy (dict_get d "content")) eqn:Hc;
    simpl in H; inversion H; subst; clear H.
  exists (dict_set d "timestamp" (JFloat now)).
  split; [reflexivity |].
  split; [apply dict_lookup_set_same |].
  split; [intros k Hk; apply dict_lookup_set_other; exact Hk |].
  apply stamped_after_set; assumption.
Qed.

Lemma new_transaction_stamps_clock_witness :
  exists d',
    unconfirmed_transactions
      (mkBlockchain
         [JDict [("timestamp", JFloat Run.t_A); ("author", JStr "a");
                 ("content", JStr "hello")]] [Run.genesis])
    = unconfirmed_transactions Run.fresh ++ [JDict d'] /\
    dict_lookup d' "timestamp" = Some (JFloat Run.t_A) /\
    (forall k, k <> "timestamp" ->
               dict_lookup d' k
               = dict_lookup [("timestamp", JInt 0); ("author", JStr "a");
                              ("content", JStr "hello")] k) /\
    stamped_record (JDict d').
Proof.
  apply (new_transaction_stamps_clock Run.t_A
           [("timestamp", JInt 0); ("author", JStr "a");
            ("content", JStr "hello")] Run.fresh "Success").
  reflexivity.
Defined.

(** ** mine_unconfirmed_transactions and get_pending_tx *)

Lemma mine_unconfirmed_transactions_Done (fuel : nat) (now : pyfloat)
    (blockchain : Blockchain) (body : string) (blockchain' : Blockchain) :
  mine_unconfirmed_transactions fuel now blockchain
  = Done (body, blockchain') ->
  exists v, mine fuel now blockchain = Done (v, blockchain') /\
            body = if negb (truthy v) then "No transactions to mine"
                   else ("Block #" ++ py_str v ++ " is mined.")%string.
Proof.
  unfold mine_unconfirmed_transactions. intros H.
  apply bind_Done in H. destruct H as ([v b1] & Hm & H).
  exists v. destruct (negb (truthy v)); inversion H; subst; auto.
Qed.

(** X11.  On a ledger reached without outside blocks of a wrong index,
    the mining handler answers "No transactions to mine" exactly when
    the pool is empty, and then changes nothing; otherwise it answers
    "Block #n is mined." with n the length the chain had, the chain has
    grown by one block and the pool is empty. *)
Theorem mine_handler_reports (fuel : nat) (now : pyfloat)
    (blockchain : Blockchain) (body : string) (blockchain' : Blockchain) :
  reachable_by index_follows blockchain ->
  mine_unconfirmed_transactions fuel now blockchain
  = Done (body, blockchain') ->
  unconfirmed_transactions blockchain = [] /\
  body = "No transactions to mine" /\ blockchain' = blockchain
  \/
  unconfirmed_transactions blockchain <> [] /\
  body = ("Block #"
          ++ int_repr (Z.of_nat (List.length (chain blockchain)))
          ++ " is mined.")%string /\
  List.length (chain blockchain') = S (List.length (chain blockchain)) /\
  unconfirmed_transactions blockchain' = [].
Proof.
  intros R H. apply mine_unconfirmed_transactions_Done in H.
  destruct H as (v & Hm & Hb). apply mine_Done in Hm.
  destruct Hm as [(He & -> & ->) | (Hne & tail & previous & n & proof & H)].
  - left. auto.
  - right. destruct H as (Hl & _ & _ & -> & ->).
    apply last_block_Done in Hl. destruct Hl as [init Hc].
    assert (Hi : index tail = Z.of_nat (List.length init)).
    { apply (reachable_indexed blockchain R). rewrite Hc.
      rewrite nth_error_app2 by lia. rewrite Nat.sub_diag. reflexivity. }
    assert (Hn : index tail + 1 = Z.of_nat (List.length (chain blockchain))).
    { rewrite Hc, length_app, Hi. simpl. lia. }
    rewrite Hn in Hb. simpl in Hb.
    assert (Hz : (Z.of_nat (List.length (chain blockchain)) =? 0) = false).
    { apply Z.eqb_neq. rewrite Hc, length_app. simpl. lia. }
    rewrite Hz in Hb. simpl in Hb.
    split; [exact Hne |]. split; [exact Hb |].
    split; [| reflexivity].
    simpl. rewrite length_app. simpl. lia.
Qed.

Lemma mine_handler_reports_witness :
  unconfirmed_transactions Run.pending_ab = [] /\
  "Block #1 is mined." = "No transactions to mine" /\
  Run.mined = Run.pending_ab
  \/
  unconfirmed_transactions Run.pending_ab <> [] /\
  "Block #1 is mined."
  = ("Block #"
     ++ int_repr (Z.of_nat (List.length (chain Run.pending_ab)))
     ++ " is mined.")%string /\
  List.length (chain Run.mined) = S (List.length (chain Run.pending_ab)) /\
  unconfirmed_transactions Run.mined = [].
Proof.
  apply (mine_handler_reports 4%nat Run.t_mine).
  - reach_submit Run.pending_a Run.tx_b.
    reach_submit Run.fresh Run.tx_a.
    reach_fresh.
  - vm_compute. reflexivity.
Defined.

(** X12.  When the tail of the chain has index -1 and the pool is not
    empty, the mining handler appends a block and empties the pool, and
    answers "No transactions to mine": the index 0 it got from [mine] is
    falsy. *)
Theorem mine_handler_misreports (fuel : nat) (now : pyfloat)
    (blockchain : Blockchain) (tail : Block) (body : string)
    (blockchain' : Blockchain) :
  last_block blockchain = Done tail ->
  index tail = -1 ->
  unconfirmed_transactions blockchain <> [] ->
  mine_unconfirmed_transactions fuel now blockchain
  = Done (body, blockchain') ->
  body = "No transactions to mine" /\
  List.length (chain blockchain') = S (List.length (chain blockchain)) /\
  unconfirmed_transactions blockchain' = [].
Proof.
  intros Hl Hi Hne H. apply mine_unconfirmed_transactions_Done in H.
  destruct H as (v & Hm & Hb). apply mine_Done in Hm.
  destruct Hm as [(He & _) | (_ & tail' & previous & n & proof & H)];
    [contradiction |].
  destruct H as (Hl' & _ & _ & -> & ->).
  rewrite Hl in Hl'. inversion Hl'. subst tail'.
  rewrite Hi in Hb. simpl in Hb.
  split; [exact Hb |]. split; [| reflexivity].
  simpl. rewrite length_app. simpl. lia.
Qed.

Lemma mine_handler_misreports_witness :
  "No transactions to mine" = "No transactions to mine" /\
  List.length (chain Run.mined_on_neg)
  = S (List.length (chain Run.with_outside_neg_pending)) /\
  unconfirmed_transactions Run.mined_on_neg = [].
Proof.
  apply (mine_handler_misreports 2%nat Run.t_neg_mine
           Run.with_outside_neg_pending
           (set_hash Run.outside_neg (Some Run.outside_neg_hash))).
  - reflexivity.
  - reflexivity.
  - discriminate.
  - vm_compute. reflexivity.
Defined.

(** X13.  Right after the mining handler has answered, whatever it
    answered, the pending list is rendered as the empty list. *)
Theorem pending_empty_after_mine (fuel : nat) (now : pyfloat)
    (blockchain : Blockchain) (body : string) (blockchain' : Blockchain) :
  mine_unconfirmed_transactions fuel now blockchain
  = Done (body, blockchain') ->
  get_pending_tx blockchain' = "[]".
Proof.
  intros H. apply mine_unconfirmed_transactions_Done in H.
  destruct H as (v & Hm & _). apply mine_Done in Hm.
  unfold get_pending_tx.
  destruct Hm as [(He & _ & ->) | (_ & tail & previous & n & proof & H)].
  - rewrite He. reflexivity.
  - destruct H as (_ & _ & _ & _ & ->). reflexivity.
Qed.

Lemma pending_empty_after_mine_witness : get_pending_tx Run.mined = "[]".
Proof.
  apply (pending_empty_after_mine 4%nat Run.t_mine Run.pending_ab
                                  "Block #1 is mined.").
  vm_compute. reflexivity.
Defined.

(** ** The ledger behind the handlers *)

Lemma served_reachable (blockchain : Blockchain) :
  served blockchain -> reachable_by no_outside_block blockchain.
Proof.
  intros S. induction S as [now | blockchain r blockchain' _ IH Hs].
  - apply reach_init.
  - destruct Hs as [blockchain now tx_data body status blockchain' H
                   | blockchain now fuel body blockchain' H
                   | blockchain].
    + unfold new_transaction in H.
      destruct tx_data as [| | | | | | d]; try discriminate.
      destruct (fields_present d required_fields); inversion H; subst.
      * apply (reach_step _ blockchain
                 (OpSubmit (JDict (dict_set d "timestamp" (JFloat now)))));
          [exact IH | exact I | apply step_submit].
      * exact IH.
    + apply mine_unconfirmed_transactions_Done in H.
      destruct H as (v & Hm & _).
      apply (reach_step _ blockchain (OpMine now));
        [exact IH | exact I | exact (step_mine _ _ _ _ _ Hm)].
    + exact IH.
Qed.

Lemma reachable_by_linked (allowed : Blockchain -> op -> Prop)
    (self : Blockchain) :
  reachable_by allowed self -> linked (chain self).
Proof.
  intros R. induction R as [now | self o self' _ IH _ Hs].
  - rewrite chain_Blockchain_init. intros i prev b _ Hb.
    destruct i; discriminate Hb.
  - apply step_chain in Hs.
    destruct Hs as [E | (init & tail & block & proof & Hc & Hh & _ & E & _)];
      rewrite E; [exact IH |].
    rewrite Hc in IH. apply linked_snoc; assumption.
Qed.

Lemma stamped_blocks_snoc (c : list Block) (b : Block) :
  (forall blk, In blk c -> Forall stamped_record (transactions blk)) ->
  Forall stamped_record (transactions b) ->
  forall blk, In blk (c ++ [b]) -> Forall stamped_record (transactions blk).
Proof.
  intros Hc Hb blk Hin. apply in_app_or in Hin.
  destruct Hin as [Hin | [<- | []]]; [exact (Hc blk Hin) | exact Hb].
Qed.

(** X14.  Through the handlers alone, from [blockchain = Blockchain()]:
    the block at position i has index i, each block names the hash of
    the one before it, and every record, pending or in a block, is a
    dictionary with a truthy author and content and a float under
    "timestamp". *)
Theorem served_ledger_invariants (blockchain : Blockchain) :
  served blockchain ->
  indexed (chain blockchain) /\
  linked (chain blockchain) /\
  Forall stamped_record (unconfirmed_transactions blockchain) /\
  (forall blk, In blk (chain blockchain) ->
               Forall stamped_record (transactions blk)).
Proof.
  intros S.
  assert (R := served_reachable blockchain S).
  split.
  { apply reachable_indexed.
    apply (reachable_by_weaken no_outside_block index_follows); [| exact R].
    intros self [tx | now | b p] H; simpl in *; [exact I | exact I | contradiction]. }
  split; [exact (reachable_by_linked _ _ R) |].
  clear R. induction S as [now | blockchain r blockchain' _ IH Hs].
  - split; [constructor |]. rewrite chain_Blockchain_init.
    intros blk [<- | []]. constructor.
  - destruct IH as [IHp IHc].
    destruct Hs as [blockchain now tx_data body status blockchain' H
                   | blockchain now fuel body blockchain' H
                   | blockchain].
    + unfold new_transaction in H.
      destruct tx_data as [| | | | | | d]; try discriminate.
      rewrite fields_present_required in H.
      destruct (json_truthy (dict_get d "author")) eqn:Ea;
        destruct (json_truthy (dict_get d "content")) eqn:Ec;
        simpl in H; inversion H; subst; clear H; [| auto | auto | auto].
      split; [| exact IHc]. simpl.
      apply Forall_app. split; [exact IHp |].
      constructor; [apply stamped_after_set; assumption | constructor].
    + apply mine_unconfirmed_transactions_Done in H.
      destruct H as (v & Hm & _). apply mine_Done in Hm.
      destruct Hm as [(_ & _ & ->) | (_ & tail & previous & n & proof & H)];
        [auto |].
      destruct H as (_ & _ & _ & _ & ->). simpl.
      split; [constructor |].
      apply stamped_blocks_snoc; [exact IHc | exact IHp].
    + auto.
Qed.

Lemma served_ledger_invariants_witness :
  indexed (chain RunServer.mined) /\
  linked (chain RunServer.mined) /\
  Forall stamped_record (unconfirmed_transactions RunServer.mined) /\
  (forall blk, In blk (chain RunServer.mined) ->
               Forall stamped_record (transactions blk)).
Proof.
  apply served_ledger_invariants.
  apply (served_request RunServer.pending (GetMine RunServer.t_mine)).
  - apply (served_request Run.fresh
             (PostNewTransaction Run.t_A RunServer.body)).
    + refine (eq_ind (Blockchain_init Run.t0) served
                     (served_init Run.t0) Run.fresh _).
      vm_compute. reflexivity.
    + apply (serves_new_transaction _ _ _ "Success" 201). reflexivity.
  - apply (serves_mine _ _ 2%nat "Block #1 is mined.").
    vm_compute. reflexivity.
Defined.

(** * The shape of a digest *)

Lemma hexdigest_cons (b : Z) (bs : list Z) :
  hexdigest (b :: bs)
  = String (hex_digit (Z.shiftr b 4))
           (String (hex_digit (Z.land b 0xf)) (hexdigest bs)).
Proof. unfold hexdigest. destruct bs; reflexivity. Qed.

Lemma hexdigest_length (bs : list Z) :
  String.length (hexdigest bs) = (2 * List.length bs)%nat.
Proof.
  induction bs as [| b bs IH].
  - reflexivity.
  - rewrite hexdigest_cons. simpl String.length. rewrite IH. simpl. lia.
Qed.

Lemma digest_length (msg : list Z) :
  List.length (SHA256.digest msg) = 32%nat.
Proof.
  unfold SHA256.digest. cbv zeta.
  generalize (SHA256.hash_blocks
                (Nat.div (List.length (SHA256.words_of_bytes (SHA256.pad msg)))
                         16)
                (SHA256.words_of_bytes (SHA256.pad msg)) SHA256.H0).
  intros h. reflexivity.
Qed.

Lemma sha256_hex_length (s : string) : String.length (sha256_hex s) = 64%nat.
Proof.
  unfold sha256_hex. rewrite hexdigest_length, digest_length. reflexivity.
Qed.

Transparent compute_hash.

Lemma compute_hash_length (b : Block) :
  String.length (compute_hash b) = 64%nat.
Proof. unfold compute_hash. apply sha256_hex_length. Qed.

Opaque compute_hash.

(** The hash of the tail is a digest of 64 characters. *)
Lemma reachable_tail_length (self : Blockchain) :
  reachable self ->
  exists tail h, last_block self = Done tail /\ hash tail = Some h /\
                 String.length h = 64%nat.
Proof.
  intros R. unfold reachable in R.
  induction R as [now | self o self' _ IH _ Hs].
  - eexists _, _. split; [reflexivity |]. split; [reflexivity |].
    apply compute_hash_length.
  - destruct IH as (tail & h & Hl & Hh & Hlen).
    apply step_chain in Hs.
    destruct Hs as [E | (init & tail' & block & proof & _ & _ & Hv & E & _)].
    + exists tail, h. split; [| auto].
      apply last_block_Done in Hl. apply last_block_Done.
      rewrite E. exact Hl.
    + exists (set_hash block (Some proof)), proof.
      split; [apply last_block_Done; eexists; exact E |].
      split; [reflexivity |].
      apply is_valid_proof_true in Hv. destruct Hv as [_ ->].
      apply compute_hash_length.
Qed.

(** X15.  In a reachable state a candidate whose previous_hash is not 64
    characters long is never accepted, whatever its proof: no second
    block can name the sentinel "0" as its predecessor. *)
Theorem short_previous_hash_rejected (self : Blockchain) (block : Block)
    (proof : string) :
  reachable self ->
  String.length (previous_hash block) <> 64%nat ->
  add_block self block proof = Done (false, self, block).
Proof.
  intros R Hne.
  destruct (reachable_tail_length self R) as (tail & h & Hl & Hh & Hlen).
  rewrite (add_block_eq self block tail proof h Hl Hh).
  assert (E : String.eqb h (previous_hash block) = false).
  { apply String.eqb_neq. intros ->. contradiction. }
  rewrite E. reflexivity.
Qed.

Lemma short_previous_hash_rejected_witness :
  add_block Run.mined (Block_init 0 [] Run.t_A "0") Run.genesis_hash
  = Done (false, Run.mined, Block_init 0 [] Run.t_A "0").
Proof.
  apply short_previous_hash_rejected.
  - reach_mined.
  - simpl. discriminate.
Defined.

(** * The order of the keys *)

Lemma ascii_compare_refl (x : ascii) : Ascii.compare x x = Eq.
Proof. unfold Ascii.compare. apply N.compare_refl. Qed.

Lemma ascii_compare_lt_trans (x y z : ascii) :
  Ascii.compare x y = Lt -> Ascii.compare y z = Lt -> Ascii.compare x z = Lt.
Proof.
  unfold Ascii.compare. rewrite !N.compare_lt_iff. apply N.lt_trans.
Qed.

Lemma string_leb_trans (a : string) :
  forall b c, String.leb a b = true -> String.leb b c = true ->
              String.leb a c = true.
Proof.
  unfold String.leb.
  induction a as [| x a IH]; intros b c Hab Hbc.
  - destruct c; reflexivity.
  - destruct b as [| y b]; [discriminate Hab |].
    destruct c as [| z c]; [discriminate Hbc |].
    simpl in *.
    destruct (Ascii.compare x y) eqn:Exy; try discriminate Hab;
      destruct (Ascii.compare y z) eqn:Eyz; try discriminate Hbc.
    + apply Ascii.compare_eq_iff in Exy, Eyz. subst y z.
      rewrite ascii_compare_refl. exact (IH b c Hab Hbc).
    + apply Ascii.compare_eq_iff in Exy. subst y. rewrite Eyz. reflexivity.
    + apply Ascii.compare_eq_iff in Eyz. subst z. rewrite Exy. reflexivity.
    + rewrite (ascii_compare_lt_trans x y z Exy Eyz). reflexivity.
Qed.

(** Two insertions under different keys commute. *)
Lemma insert_item_comm {A : Type} (x y : string * A) (l : list (string * A)) :
  fst x <> fst y ->
  insert_item x (insert_item y l) = insert_item y (insert_item x l).
Proof.
  intros Hne.
  assert (Hxy : String.leb (fst x) (fst y) = negb (String.leb (fst y) (fst x))).
  { destruct (String.leb (fst x) (fst y)) eqn:E1;
      destruct (String.leb (fst y) (fst x)) eqn:E2; try reflexivity.
    - contradiction Hne. apply String.leb_antisym; assumption.
    - destruct (String.leb_total (fst x) (fst y)); congruence. }
  induction l as [| z l IH]; simpl.
  - rewrite Hxy. destruct (String.leb (fst y) (fst x)); reflexivity.
  - destruct (String.leb (fst y) (fst z)) eqn:Eyz;
      destruct (String.leb (fst x) (fst z)) eqn:Exz; simpl;
      rewrite ?Eyz, ?Exz.
    + rewrite Hxy.
      destruct (String.leb (fst y) (fst x)); simpl; rewrite ?Exz, ?Eyz;
        reflexivity.
    + assert (E : String.leb (fst x) (fst y) = false).
      { destruct (String.leb (fst x) (fst y)) eqn:E; [| reflexivity].
        rewrite (string_leb_trans _ _ _ E Eyz) in Exz. discriminate Exz. }
      rewrite E. reflexivity.
    + assert (E : String.leb (fst y) (fst x) = false).
      { destruct (String.leb (fst y) (fst x)) eqn:E; [| reflexivity].
        rewrite (string_leb_trans _ _ _ E Exz) in Eyz. discriminate Eyz. }
      rewrite E. reflexivity.
    + rewrite IH. reflexivity.
Qed.

Lemma sort_items_permutation {A : Type} (l1 l2 : list (string * A)) :
  Permutation l1 l2 -> NoDup (map fst l1) -> sort_items l1 = sort_items l2.
Proof.
  unfold sort_items.
  induction 1 as [| x l1 l2 _ IH | x y l | l1 l2 l3 P12 IH12 _ IH23];
    intros Hnd; simpl.
  - reflexivity.
  - inversion Hnd. rewrite IH by assumption. reflexivity.
  - simpl in Hnd. inversion Hnd as [| k ks Hk _]. subst.
    apply insert_item_comm. intros E. apply Hk. left. symmetry. exact E.
  - rewrite IH12 by exact Hnd. apply IH23.
    apply (Permutation_NoDup (Permutation_map fst P12) Hnd).
Qed.

Lemma json_dumps_JDict (entries : list (string * json)) :
  json_dumps (JDict entries)
  = ("{" ++ String.concat ", "
             (map item_text
                (sort_items
                   (map (fun kv => (fst kv, json_dumps (snd kv))) entries)))
         ++ "}")%string.
Proof.
  assert (E : map (fun kv : string * json =>
                     match kv with (k, x) => (k, json_dumps x) end) entries
              = map (fun kv => (fst kv, json_dumps (snd kv))) entries).
  { apply map_ext. intros [k x]. reflexivity. }
  rewrite <- E. reflexivity.
Qed.

Lemma json_dumps_JList (items : list json) :
  json_dumps (JList items)
  = ("[" ++ String.concat ", " (map json_dumps items) ++ "]")%string.
Proof. reflexivity. Qed.

Lemma json_dumps_same_entries (v1 v2 : json) :
  same_entries v1 v2 -> json_dumps v1 = json_dumps v2.
Proof.
  intros (d1 & d2 & -> & -> & P & Hnd).
  rewrite !json_dumps_JDict.
  rewrite (sort_items_permutation
             (map (fun kv => (fst kv, json_dumps (snd kv))) d1)
             (map (fun kv => (fst kv, json_dumps (snd kv))) d2)).
  - reflexivity.
  - apply Permutation_map. exact P.
  - rewrite map_map. simpl. exact Hnd.
Qed.

Transparent compute_hash.

(** X16.  The digest of a block does not depend on the order in which
    the keys of its transactions were given: two blocks that differ only
    in that order have the same [compute_hash()]. *)
Theorem compute_hash_key_order (i : Z) (txs1 txs2 : list json)
    (t : pyfloat) (previous : string) (n : Z) (h : option string) :
  Forall2 same_entries txs1 txs2 ->
  compute_hash (mkBlock i txs1 t previous n h)
  = compute_hash (mkBlock i txs2 t previous n h).
Proof.
  intros F.
  assert (E : json_dumps (JList txs1) = json_dumps (JList txs2)).
  { rewrite !json_dumps_JList.
    assert (M : map json_dumps txs1 = map json_dumps txs2).
    { induction F as [| v1 v2 l1 l2 Hv _ IH]; simpl.
      - reflexivity.
      - rewrite (json_dumps_same_entries v1 v2 Hv), IH. reflexivity. }
    rewrite M. reflexivity. }
  unfold compute_hash, block_string. f_equal.
  rewrite !json_dumps_JDict.
  unfold Block_dict. rewrite !map_app. cbn [map fst snd].
  cbn [index transactions timestamp previous_hash nonce hash].
  rewrite E. reflexivity.
Qed.

Opaque compute_hash.

Lemma compute_hash_key_order_witness :
  compute_hash
    (mkBlock 1 [JDict [("author", JStr "a"); ("content", JStr "hello")]]
             Run.t_mine Run.genesis_hash 0 None)
  = compute_hash
      (mkBlock 1 [JDict [("content", JStr "hello"); ("author", JStr "a")]]
               Run.t_mine Run.genesis_hash 0 None).
Proof.
  apply compute_hash_key_order.
  constructor; [| constructor].
  exists [("author", JStr "a"); ("content", JStr "hello")],
         [("content", JStr "hello"); ("author", JStr "a")].
  split; [reflexivity |]. split; [reflexivity |].
  split; [apply perm_swap |].
  simpl. constructor.
  - intros [H | []]. discriminate H.
  - constructor; [intros [] | constructor].
Defined.
